(** * Biomarker extraction from lab-report text (PyScript/Extractdata.py)

    A shallow embedding of the extraction engine of the dashboard:
    [extract_value], [extract_patient_info], [get_reference_ranges] and the
    scanning and assembling part of [process_pdf_to_json], with the Python
    built-ins they rest on ([str.replace], [str.split], [str.lower], [in],
    [float], [re.search]).

    Modelling conventions.
    - A Python [str] is a [list ascii]: the code points below 256.  The
      character classes below are the ones Python has on that range; text
      with code points above 255 is outside the model.
    - A Python [float] is a [spec_float] at binary64 (53 bits, emax 1024);
      [float(s)] is the correctly rounded value of the literal.
    - An exception is a value of [exn]; code that can raise returns [exc A].
    - [print] appends a line to the output carried next to the result.
    - The clock, the pages read from the document and the saving of the
      record are inputs of the functions that use them.
    - The scan returns, next to the table of values, the record of its
      calls of [extract_value]. *)

From Stdlib Require Import List Ascii String ZArith Lia Bool Arith PeanoNat.
From Stdlib Require Import Floats.SpecFloat DecimalString.
Import ListNotations.

Set Implicit Arguments.

(** ** Python strings *)

Definition str := list ascii.

(** String literals are written [py "..."]. *)
Definition py (s : string) : str := list_ascii_of_string s.

Definition code (c : ascii) : nat := nat_of_ascii c.

Definition chr_eqb (a b : ascii) : bool := Ascii.eqb a b.

Definition str_eqb (a b : str) : bool :=
  if list_eq_dec ascii_dec a b then true else false.

Module Char.

(** [str.isspace], which is also the class [\s] of [re] and the separator
    set of [str.split()] : TAB LF VT FF CR, FS GS RS US, space, NEL, NBSP. *)
Definition isspace (c : ascii) : bool :=
  let n := code c in
  ((9 <=? n) && (n <=? 13)) || ((28 <=? n) && (n <=? 32))
  || (n =? 133) || (n =? 160).

(** The C-locale [isspace] that the float parser strips: TAB LF VT FF CR
    and space. *)
Definition is_c_space (c : ascii) : bool :=
  let n := code c in ((9 <=? n) && (n <=? 13)) || (n =? 32).

(** Decimal digits: the class [\d] of [re] on this range. *)
Definition isdigit (c : ascii) : bool :=
  let n := code c in (48 <=? n) && (n <=? 57).

Definition digit_val (c : ascii) : Z := Z.of_nat (code c - 48).

(** [c.lower()]: A-Z and the Latin-1 capitals (except the multiplication
    sign, 215) move up by 32. *)
Definition lower (c : ascii) : ascii :=
  let n := code c in
  if ((65 <=? n) && (n <=? 90))
     || ((192 <=? n) && (n <=? 222) && negb (n =? 215))
  then ascii_of_nat (n + 32) else c.

End Char.

(** [s.lower()] *)
Definition lower (s : str) : str := map Char.lower s.

(** [s.startswith(p)] *)
Fixpoint startswith (p s : str) : bool :=
  match p, s with
  | [], _ => true
  | _ :: _, [] => false
  | a :: p', b :: s' => chr_eqb a b && startswith p' s'
  end.

(** [p in s]: [p] occurs in [s] as a contiguous substring. *)
Fixpoint contains (p s : str) : bool :=
  startswith p s ||
  match s with
  | [] => false
  | _ :: s' => contains p s'
  end.

(** [s.replace(c, '')] for a one-character [c]: every occurrence goes. *)
Definition remove_char (c : ascii) (s : str) : str :=
  filter (fun x => negb (chr_eqb x c)) s.

(** [s.split(sep)] for a one-character separator: always at least one
    field, empty fields kept. *)
Fixpoint split_on (sep : ascii) (s : str) : list str :=
  match s with
  | [] => [[]]
  | c :: s' =>
      if chr_eqb c sep then [] :: split_on sep s'
      else match split_on sep s' with
           | [] => [[c]]
           | w :: ws => (c :: w) :: ws
           end
  end.

(** [s.split()]: maximal runs of non-whitespace characters, in order. *)
Fixpoint split_ws_aux (cur : str) (s : str) : list str :=
  match s with
  | [] => match cur with [] => [] | _ => [rev cur] end
  | c :: s' =>
      if Char.isspace c
      then match cur with
           | [] => split_ws_aux [] s'
           | _ => rev cur :: split_ws_aux [] s'
           end
      else split_ws_aux (c :: cur) s'
  end.

Definition split_ws (s : str) : list str := split_ws_aux [] s.

(** [s.strip()] *)
Fixpoint lstrip_by (p : ascii -> bool) (s : str) : str :=
  match s with
  | c :: s' => if p c then lstrip_by p s' else s
  | [] => []
  end.

Definition rstrip_by (p : ascii -> bool) (s : str) : str :=
  rev (lstrip_by p (rev s)).

Definition strip (s : str) : str :=
  rstrip_by Char.isspace (lstrip_by Char.isspace s).

(** ** Exceptions and output *)

Inductive exn :=
| ValueError (msg : str)
| TypeError (msg : str)
| KeyError (key : str).

Inductive exc (A : Type) :=
| Ok (a : A)
| Raised (e : exn).

Arguments Ok {A} a.
Arguments Raised {A} e.

Definition exc_bind {A B} (m : exc A) (f : A -> exc B) : exc B :=
  match m with
  | Ok a => f a
  | Raised e => Raised e
  end.

Declare Scope exc_scope.
Delimit Scope exc_scope with exc.
Notation "x <- m ;; k" := (exc_bind m (fun x => k))
  (at level 100, m at next level, right associativity) : exc_scope.

(** [str(e)] of an exception. *)
Definition exn_str (e : exn) : str :=
  match e with
  | ValueError msg => msg
  | TypeError msg => msg
  | KeyError k => py "'" ++ k ++ py "'"
  end.

(** ** Python floats *)

Definition float := spec_float.

Module PyFloat.

Definition prec : Z := 53.
Definition emax : Z := 1024.

(** The float nearest (ties to even) to [(-1)^neg * m * 10^e]. *)
Definition of_decimal (neg : bool) (m : Z) (e : Z) : float :=
  match m with
  | Zpos p =>
      if (0 <=? e)%Z
      then match (Zpos p * 10 ^ e)%Z with
           | Zpos q => binary_round prec emax neg q 0
           | _ => S754_zero neg
           end
      else
        let '(q, e', l) :=
          SFdiv_core_binary prec emax (Zpos p) 0 (10 ^ (- e))%Z 0 in
        binary_round_aux prec emax neg q e' l
  | _ => S754_zero neg
  end.

(** The value of a digit string, most significant digit first. *)
Definition digits_val (ds : str) : Z :=
  fold_left (fun acc c => (10 * acc + Char.digit_val c)%Z) ds 0%Z.

(** The longest prefix of digits, and what follows it. *)
Fixpoint span_digits (s : str) : str * str :=
  match s with
  | c :: s' =>
      if Char.isdigit c
      then let '(ds, r) := span_digits s' in (c :: ds, r)
      else ([], s)
  | [] => ([], [])
  end.

(** Characters at or above 127: a space becomes [" "], anything else
    becomes ["?"] and ends the string. *)
Fixpoint to_ascii (s : str) : str :=
  match s with
  | [] => []
  | c :: s' =>
      if code c <? 127 then c :: to_ascii s'
      else if Char.isspace c then " "%char :: to_ascii s'
      else ["?"%char]
  end.

(** Underscores are dropped; each must stand between two digits. *)
Fixpoint drop_underscores (prev : ascii) (s : str) : option str :=
  match s with
  | [] => if chr_eqb prev "_" then None else Some []
  | c :: s' =>
      if chr_eqb c "_"
      then if Char.isdigit prev then drop_underscores c s' else None
      else if chr_eqb prev "_" && negb (Char.isdigit c) then None
      else option_map (cons c) (drop_underscores c s')
  end.

(** An optional sign. *)
Definition parse_sign (s : str) : bool * str :=
  match s with
  | c :: s' =>
      if chr_eqb c "-" then (true, s')
      else if chr_eqb c "+" then (false, s')
      else (false, s)
  | [] => (false, [])
  end.

(** An exponent part [e], [e+], [e-] followed by digits; without a digit
    the [e] is not part of the number. *)
Definition parse_exponent (s : str) : Z * str :=
  match s with
  | c :: s' =>
      if chr_eqb (Char.lower c) "e" then
        let '(eneg, s'') := parse_sign s' in
        match span_digits s'' with
        | ([], _) => (0%Z, s)
        | (ds, r) => ((if eneg then - digits_val ds else digits_val ds)%Z, r)
        end
      else (0%Z, s)
  | [] => (0%Z, [])
  end.

(** A decimal literal: digits, optional point, digits, optional
    exponent; at least one digit before the exponent; nothing after. *)
Definition parse_decimal (neg : bool) (s : str) : option float :=
  let '(ip, r1) := span_digits s in
  let '(fp, r2) :=
    match r1 with
    | c :: r => if chr_eqb c "." then span_digits r else ([], r1)
    | [] => ([], r1)
    end in
  match ip ++ fp with
  | [] => None
  | ds =>
      let '(ex, r3) := parse_exponent r2 in
      match r3 with
      | [] => Some (of_decimal neg (digits_val ds)
                               (ex - Z.of_nat (List.length fp)))
      | _ => None
      end
  end.

(** [inf], [infinity] and [nan], in any case. *)
Definition parse_inf_nan (neg : bool) (s : str) : option float :=
  let l := lower s in
  if str_eqb l (py "inf") || str_eqb l (py "infinity")
  then Some (S754_infinity neg)
  else if str_eqb l (py "nan") then Some S754_nan
  else None.

(** [float(s)]: [None] stands for the [ValueError] it raises. *)
Definition of_str (s : str) : option float :=
  match drop_underscores "000" (to_ascii s) with
  | None => None
  | Some t =>
      let u := rstrip_by Char.is_c_space (lstrip_by Char.is_c_space t) in
      let '(neg, v) := parse_sign u in
      match parse_decimal neg v with
      | Some f => Some f
      | None => parse_inf_nan neg v
      end
  end.

(** [x >= 0] *)
Definition nonneg (x : float) : bool := SFleb (S754_zero false) x.

End PyFloat.

(** [float(s)] as the code calls it. *)
Definition py_float (s : str) : exc float :=
  match PyFloat.of_str s with
  | Some f => Ok f
  | None =>
      Raised (ValueError
                (py "could not convert string to float: '" ++ s ++ py "'"))
  end.

(** ** Output and the monad of functions that print *)

Definition M (A : Type) : Type := exc A * list str.

Definition ret {A} (a : A) : M A := (Ok a, []).

Definition lift {A} (x : exc A) : M A := (x, []).

Definition print (s : str) : M unit := (Ok tt, [s]).

Definition bind {A B} (m : M A) (f : A -> M B) : M B :=
  match m with
  | (Ok a, out) => let '(r, out') := f a in (r, out ++ out')
  | (Raised e, out) => (Raised e, out)
  end.

(** [try: body except Exception as e: handler e] *)
Definition try_except {A} (body : M A) (handler : exn -> M A) : M A :=
  match body with
  | (Ok a, out) => (Ok a, out)
  | (Raised e, out) => let '(r, out') := handler e in (r, out ++ out')
  end.

Declare Scope M_scope.
Delimit Scope M_scope with M.
Notation "x <- m ;; k" := (bind m (fun x => k))
  (at level 100, m at next level, right associativity) : M_scope.

(** ** Regular expressions, as [re] matches them

    A backtracking matcher: [exec] lists the ways a pattern can match at
    the start of a string in the order [re] tries them (greedy first), as
    pairs of the text left over and the groups captured; [search] takes
    the first way at the leftmost start that has one. *)

Module Re.

Inductive cls :=
| Lit (c : ascii)            (* the character itself *)
| Digit                      (* \d *)
| Space                      (* \s *)
| OneOf (cs : list ascii)    (* [...] *)
| NoneOf (cs : list ascii).  (* [^...] *)

Inductive regex :=
| Eps
| Chr (c : cls)
| Seq (r1 r2 : regex)
| Star (c : cls)             (* c*, greedy *)
| Plus (c : cls)             (* c+, greedy *)
| Opt (r : regex)            (* r?, greedy *)
| Group (n : nat) (r : regex)
| Eos.                       (* $ *)

(** A literal string, character by character. *)
Fixpoint lit_str (s : str) : regex :=
  match s with
  | [] => Eps
  | [c] => Chr (Lit c)
  | c :: s' => Seq (Chr (Lit c)) (lit_str s')
  end.

Definition lit (s : string) : regex := lit_str (py s).

Definition caps := list (nat * str).

Fixpoint lookup (n : nat) (g : caps) : option str :=
  match g with
  | [] => None
  | (k, v) :: g' => if Nat.eqb k n then Some v else lookup n g'
  end.

(** [ic] is the flag [re.IGNORECASE]. *)
Definition cls_match (ic : bool) (c : cls) (x : ascii) : bool :=
  let same a := if ic then chr_eqb (Char.lower a) (Char.lower x)
                else chr_eqb a x in
  match c with
  | Lit a => same a
  | Digit => Char.isdigit x
  | Space => Char.isspace x
  | OneOf cs => existsb same cs
  | NoneOf cs => negb (existsb same cs)
  end.

Fixpoint star (ic : bool) (c : cls) (s : str) (g : caps)
  : list (str * caps) :=
  match s with
  | x :: s' =>
      if cls_match ic c x then star ic c s' g ++ [(s, g)] else [(s, g)]
  | [] => [([], g)]
  end.

Fixpoint exec (ic : bool) (r : regex) (s : str) (g : caps)
  : list (str * caps) :=
  match r with
  | Eps => [(s, g)]
  | Chr c =>
      match s with
      | x :: s' => if cls_match ic c x then [(s', g)] else []
      | [] => []
      end
  | Seq r1 r2 =>
      flat_map (fun '(s', g') => exec ic r2 s' g') (exec ic r1 s g)
  | Star c => star ic c s g
  | Plus c =>
      match s with
      | x :: s' => if cls_match ic c x then star ic c s' g else []
      | [] => []
      end
  | Opt r' => exec ic r' s g ++ [(s, g)]
  | Group n r' =>
      map (fun '(s', g') =>
             (s', (n, firstn (List.length s - List.length s') s) :: g'))
          (exec ic r' s g)
  | Eos =>
      match s with
      | [] => [(s, g)]
      | [c] => if chr_eqb c "010" then [(s, g)] else []
      | _ => []
      end
  end.

(** [re.search(r, s, flags)]: the groups of the match, or [None]. *)
Fixpoint search (ic : bool) (r : regex) (s : str) : option caps :=
  match exec ic r s [] with
  | (_, g) :: _ => Some g
  | [] =>
      match s with
      | _ :: s' => search ic r s'
      | [] => None
      end
  end.

(** [m.group(n)]; [None] when the group took no part in the match. *)
Definition group (n : nat) (m : caps) : option str := lookup n m.

End Re.

(** ** extract_value *)

(** The patterns of [extract_value], quoted with blanks between their
    parts: the group [( \d+ \.? \d* )] that each of them has. *)
Definition number_group : Re.regex :=
  Re.Group 1 (Re.Seq (Re.Plus Re.Digit)
             (Re.Seq (Re.Opt (Re.Chr (Re.Lit "."))) (Re.Star Re.Digit))).

(** [( \d+ \.? \d* ) \s* %] *)
Definition pattern_percent : Re.regex :=
  Re.Seq number_group (Re.Seq (Re.Star Re.Space) (Re.Chr (Re.Lit "%"))).

(** [H\.P\.L\.C \s* ( \d+ \.? \d* )] *)
Definition pattern_hplc_before : Re.regex :=
  Re.Seq (Re.lit "H.P.L.C") (Re.Seq (Re.Star Re.Space) number_group).

(** [( \d+ \.? \d* ) \s* H\.P\.L\.C] *)
Definition pattern_hplc_after : Re.regex :=
  Re.Seq number_group (Re.Seq (Re.Star Re.Space) (Re.lit "H.P.L.C")).

(** [( \d+ \.? \d* ) \s* $] *)
Definition pattern_at_end : Re.regex :=
  Re.Seq number_group (Re.Seq (Re.Star Re.Space) Re.Eos).

Definition patterns : list Re.regex :=
  [pattern_percent; pattern_hplc_before; pattern_hplc_after; pattern_at_end].

(** [float(match.group(1))] *)
Definition float_of_group (m : Re.caps) : exc float :=
  match Re.group 1 m with
  | Some s => py_float s
  | None => Raised (TypeError (py "float() argument must be a string or a real number, not 'NoneType'"))
  end.

(** [for pattern in patterns: ...]; [Some v] stands for [return v], [None]
    for a loop that ran to its end. *)
Fixpoint for_patterns (ps : list Re.regex) (clean_line : str)
  : exc (option float) :=
  match ps with
  | [] => Ok None
  | p :: ps' =>
      match Re.search true p clean_line with
      | Some m => (v <- float_of_group m ;; Ok (Some v))%exc
      | None => for_patterns ps' clean_line
      end
  end.

(** [for word in reversed(words): ...], with its [except ValueError]. *)
Fixpoint for_words (ws : list str) : exc (option float) :=
  match ws with
  | [] => Ok None
  | word :: ws' =>
      match py_float word with
      | Ok v => Ok (Some v)
      | Raised (ValueError _) => for_words ws'
      | Raised e => Raised e
      end
  end.

Definition clean (line : str) : str :=
  remove_char ">" (remove_char "<" (remove_char "," line)).

Definition is_hba1c (biomarker_name : str) : bool :=
  contains (py "hba1c") (lower biomarker_name).

(** The body of the [try]: [Some v] when it returns [v], [None] when it
    runs to its end. *)
Definition extract_value_try (line biomarker_name : str)
  : exc (option float) :=
  let clean_line := clean line in
  (r <- (if is_hba1c biomarker_name then for_patterns patterns clean_line
         else Ok None) ;;
   match r with
   | Some v => Ok (Some v)
   | None => for_words (rev (split_ws clean_line))
   end)%exc.

(** The [except Exception as e] clause. *)
Definition on_error (biomarker_name : str) (e : exn) : M (option float) :=
  (_ <- print (py "Error extracting " ++ biomarker_name
               ++ py ": " ++ exn_str e) ;;
   ret None)%M.

Definition extract_value (line biomarker_name : str) : M (option float) :=
  (r <- try_except (lift (extract_value_try line biomarker_name))
                   (on_error biomarker_name) ;;
   match r with
   | Some v => ret (Some v)
   | None => ret None
   end)%M.

(** What [extract_value] hands back to its caller.  [extract_value_returns]
    below shows that it never raises, so this is all a caller sees. *)
Definition extract_value_result (line biomarker_name : str) : option float :=
  match fst (extract_value line biomarker_name) with
  | Ok v => v
  | Raised _ => None
  end.

(** ** int, dates and paths *)

Definition str_of_nat (n : nat) : str :=
  py (NilEmpty.string_of_uint (Nat.to_uint n)).

(** The default of [sys.set_int_max_str_digits]. *)
Definition int_max_str_digits : nat := 4300.

(** [int(s)] in base 10. *)
Definition py_int (s : str) : exc Z :=
  let bad := Raised (ValueError
               (py "invalid literal for int() with base 10: '" ++ s ++ py "'")) in
  let t := PyFloat.to_ascii s in
  let u := rstrip_by Char.is_c_space (lstrip_by Char.is_c_space t) in
  let '(neg, v) := PyFloat.parse_sign u in
  match PyFloat.drop_underscores "000" v with
  | Some (d :: ds) =>
      if forallb Char.isdigit (d :: ds) then
        if int_max_str_digits <? List.length (d :: ds)
        then Raised (ValueError
               (py "Exceeds the limit (4300 digits) for integer string conversion: value has "
                ++ str_of_nat (List.length (d :: ds))
                ++ py " digits; use sys.set_int_max_str_digits() to increase the limit"))
        else
          let n := PyFloat.digits_val (d :: ds) in
          Ok (if neg then (- n)%Z else n)
      else bad
  | _ => bad
  end.

(** A reading of the clock, [datetime.now()]. *)
Record datetime := {
  year : nat; month : nat; day : nat;
  hour : nat; minute : nat; second : nat
}.

Definition zero_pad (width : nat) (s : str) : str :=
  repeat "0"%char (width - List.length s) ++ s.

(** [d.strftime("%Y-%m-%d")] *)
Definition strftime_date (d : datetime) : str :=
  zero_pad 4 (str_of_nat (year d)) ++ py "-"
  ++ zero_pad 2 (str_of_nat (month d)) ++ py "-"
  ++ zero_pad 2 (str_of_nat (day d)).

(** [d.strftime("%Y-%m-%d %H:%M:%S")] *)
Definition strftime_stamp (d : datetime) : str :=
  strftime_date d ++ py " "
  ++ zero_pad 2 (str_of_nat (hour d)) ++ py ":"
  ++ zero_pad 2 (str_of_nat (minute d)) ++ py ":"
  ++ zero_pad 2 (str_of_nat (second d)).

(** [os.path.basename(p)]: what follows the last slash. *)
Definition basename (p : str) : str := last (split_on "/" p) [].

(** ** extract_patient_info *)

Record patient_info := {
  name : str;
  age : option Z;
  gender : option str;
  date : str
}.

(** [NAME \s* :? \s* ( [^(]+ ) (?: \( ( \d+ ) Y/ ( [MF] ) \) )?] *)
Definition name_pattern : Re.regex :=
  Re.Seq (Re.lit "NAME")
  (Re.Seq (Re.Star Re.Space)
  (Re.Seq (Re.Opt (Re.Chr (Re.Lit ":")))
  (Re.Seq (Re.Star Re.Space)
  (Re.Seq (Re.Group 1 (Re.Plus (Re.NoneOf ["("%char])))
          (Re.Opt
             (Re.Seq (Re.Chr (Re.Lit "("))
             (Re.Seq (Re.Group 2 (Re.Plus Re.Digit))
             (Re.Seq (Re.lit "Y/")
             (Re.Seq (Re.Group 3 (Re.Chr (Re.OneOf ["M"%char; "F"%char])))
                     (Re.Chr (Re.Lit ")"))))))))))).

(** [x if x else None] on a group: an absent or empty group gives [None]. *)
Definition if_truthy (g : option str) : option str :=
  match g with
  | Some (c :: s) => Some (c :: s)
  | _ => None
  end.

(** The dictionary built from a match of [name_pattern]. *)
Definition patient_of_match (m : Re.caps) (now : datetime) : exc patient_info :=
  match Re.group 1 m with
  | None => Raised (TypeError (py "'NoneType' object has no attribute 'strip'"))
  | Some g1 =>
      let name := strip g1 in
      (age <- match if_truthy (Re.group 2 m) with
              | Some g2 => (n <- py_int g2 ;; Ok (Some n))
              | None => Ok None
              end ;;
       Ok {| name := py "Dr. " ++ name;
             age := age;
             gender := if_truthy (Re.group 3 m);
             date := strftime_date now |})%exc
  end.

Definition unknown_patient (now : datetime) : patient_info :=
  {| name := py "Unknown"; age := None; gender := None;
     date := strftime_date now |}.

(** [for line in ...: if 'NAME' in line: ...] *)
Fixpoint patient_from_lines (lines : list str) (now : datetime)
  : exc patient_info :=
  match lines with
  | [] => Ok (unknown_patient now)
  | line :: rest =>
      if contains (py "NAME") line then
        match Re.search false name_pattern line with
        | Some m => patient_of_match m now
        | None => patient_from_lines rest now
        end
      else patient_from_lines rest now
  end.

Definition extract_patient_info (text : str) (now : datetime)
  : exc patient_info :=
  patient_from_lines (split_on "010" text) now.

(** ** get_reference_ranges *)

(** A Python number in a table: an [int] or a [float]. *)
Inductive num :=
| Int (z : Z)
| Float (f : float).

(** A float literal of the source. *)
Definition float_lit (s : string) : float :=
  match PyFloat.of_str (py s) with
  | Some f => f
  | None => S754_nan
  end.

Record reference_range := {
  unit : str;
  range_text : str;      (* "reference_range" *)
  low : num;
  high : num
}.

Definition get_reference_ranges : list (str * reference_range) :=
  [ (py "Vitamin D",
     {| unit := py "ng/mL"; range_text := py "30-100";
        low := Int 30; high := Int 100 |});
    (py "Vitamin B12",
     {| unit := py "pg/mL"; range_text := py "211-911";
        low := Int 211; high := Int 911 |});
    (py "Total Cholesterol",
     {| unit := py "mg/dL"; range_text := py "<200";
        low := Int 0; high := Int 200 |});
    (py "LDL",
     {| unit := py "mg/dL"; range_text := py "<100";
        low := Int 0; high := Int 100 |});
    (py "HDL",
     {| unit := py "mg/dL"; range_text := py ">40";
        low := Int 40; high := Int 100 |});
    (py "Triglycerides",
     {| unit := py "mg/dL"; range_text := py "<150";
        low := Int 0; high := Int 150 |});
    (py "Creatinine",
     {| unit := py "mg/dL"; range_text := py "0.7-1.3";
        low := Float (float_lit "0.7"); high := Float (float_lit "1.3") |});
    (py "HbA1c",
     {| unit := py "%"; range_text := py "<5.7";
        low := Int 0; high := Float (float_lit "5.7") |}) ].

(** ** Dictionaries, in insertion order *)

Fixpoint dict_get {V} (k : str) (d : list (str * V)) : option V :=
  match d with
  | [] => None
  | (k', v) :: d' => if str_eqb k' k then Some v else dict_get k d'
  end.

(** [d[k] = v]: an old key keeps its place, a new one goes last. *)
Fixpoint dict_set {V} (k : str) (v : V) (d : list (str * V))
  : list (str * V) :=
  match d with
  | [] => [(k, v)]
  | (k', v') :: d' =>
      if str_eqb k' k then (k', v) :: d' else (k', v') :: dict_set k v d'
  end.

(** [d[k]], which raises [KeyError] on a missing key. *)
Definition dict_item {V} (k : str) (d : list (str * V)) : exc V :=
  match dict_get k d with
  | Some v => Ok v
  | None => Raised (KeyError k)
  end.

Definition keys {V} (d : list (str * V)) : list str := map fst d.

(** ** process_pdf_to_json: the scan *)

Record info := {
  patterns_of : list str;     (* "patterns" *)
  value : option float        (* "value" *)
}.

Definition biomarkers : list (str * info) :=
  [ (py "Total Cholesterol",
     {| patterns_of := [py "TOTAL CHOLESTEROL"; py "CHOLESTEROL - TOTAL"];
        value := None |});
    (py "LDL",
     {| patterns_of := [py "LDL CHOLESTEROL"; py "LDL-C"]; value := None |});
    (py "HDL",
     {| patterns_of := [py "HDL CHOLESTEROL"; py "HDL-C"]; value := None |});
    (py "Triglycerides",
     {| patterns_of := [py "TRIGLYCERIDES"; py "TRIG"]; value := None |});
    (py "Creatinine",
     {| patterns_of := [py "CREATININE"; py "CREATININE - SERUM"];
        value := None |});
    (py "Vitamin D",
     {| patterns_of := [py "VITAMIN D"; py "25-OH VITAMIN D"];
        value := None |});
    (py "Vitamin B12",
     {| patterns_of := [py "VITAMIN B-12"; py "VITAMIN B12"; py "B-12"];
        value := None |});
    (py "HbA1c",
     {| patterns_of := [py "HbA1c"; py "HbA1c - (HPLC)";
                        py "GLYCATED HEMOGLOBIN"];
        value := None |}) ].

(** [full_text]: the text of the pages that have some, each followed by a
    newline.  [None] is a page for which [extract_text] gives [None]. *)
Fixpoint full_text_of (pages : list (option str)) : str :=
  match pages with
  | [] => []
  | Some (c :: text) :: rest => (c :: text) ++ "010"%char :: full_text_of rest
  | _ :: rest => full_text_of rest
  end.

(** One alias found in one line, and the lines handed to [extract_value]
    because of it, in the order of the calls.  The scan returns these next
    to the values; the code keeps no such record. *)
Record parse_event := {
  ev_line : nat;              (* index of the line the alias is in *)
  ev_biomarker : str;
  ev_alias : str;
  ev_parsed : list nat        (* indices of the lines parsed *)
}.

(** [pattern.lower() in line.lower()] *)
Definition alias_in (pattern line : str) : bool :=
  contains (lower pattern) (lower line).

(** [for offset in range(1, 3): ...]: the value found, and the lines
    parsed. *)
Fixpoint for_offsets (lines : list str) (idx : nat) (biomarker : str)
  (offsets : list nat) : option float * list nat :=
  match offsets with
  | [] => (None, [])
  | offset :: rest =>
      if idx + offset <? List.length lines then
        match extract_value_result (nth (idx + offset) lines []) biomarker with
        | Some val => (Some val, [idx + offset])
        | None =>
            let '(r, parsed) := for_offsets lines idx biomarker rest in
            (r, (idx + offset) :: parsed)
        end
      else for_offsets lines idx biomarker rest
  end.

(** [for pattern in info["patterns"]: ...] for a biomarker without a value:
    the value to store, if one is found. *)
Fixpoint for_aliases (lines : list str) (idx : nat) (line biomarker : str)
  (aliases : list str) : option float * list parse_event :=
  match aliases with
  | [] => (None, [])
  | pattern :: rest =>
      if alias_in pattern line then
        if str_eqb biomarker (py "HbA1c") then
          let '(found, parsed) := for_offsets lines idx biomarker [1; 2] in
          let ev := {| ev_line := idx; ev_biomarker := biomarker;
                       ev_alias := pattern; ev_parsed := parsed |} in
          match found with
          | Some val => (Some val, [ev])
          | None =>
              let '(r, evs) := for_aliases lines idx line biomarker rest in
              (r, ev :: evs)
          end
        else
          let ev := {| ev_line := idx; ev_biomarker := biomarker;
                       ev_alias := pattern; ev_parsed := [idx] |} in
          match extract_value_result line biomarker with
          | Some val => (Some val, [ev])
          | None =>
              let '(r, evs) := for_aliases lines idx line biomarker rest in
              (r, ev :: evs)
          end
      else for_aliases lines idx line biomarker rest
  end.

(** [for biomarker, info in biomarkers.items(): if info["value"] is None: ...] *)
Fixpoint for_biomarkers (lines : list str) (idx : nat) (line : str)
  (table : list (str * info)) : list (str * info) * list parse_event :=
  match table with
  | [] => ([], [])
  | (biomarker, i) :: rest =>
      let '(i', evs) :=
        match value i with
        | None =>
            let '(v, evs) :=
              for_aliases lines idx line biomarker (patterns_of i) in
            ({| patterns_of := patterns_of i; value := v |}, evs)
        | Some _ => (i, [])
        end in
      let '(rest', evs') := for_biomarkers lines idx line rest in
      ((biomarker, i') :: rest', evs ++ evs')
  end.

(** [for idx, line in enumerate(lines): ...], from line [idx] on. *)
Fixpoint scan_from (lines : list str) (idx : nat) (todo : list str)
  (table : list (str * info)) : list (str * info) * list parse_event :=
  match todo with
  | [] => (table, [])
  | line :: todo' =>
      let '(table', evs) := for_biomarkers lines idx line table in
      let '(table'', evs') := scan_from lines (S idx) todo' table' in
      (table'', evs ++ evs')
  end.

Definition scan (lines : list str) : list (str * info) * list parse_event :=
  scan_from lines 0 lines biomarkers.

(** The mapping from name to value after the scan of a text. *)
Definition extract_all (full_text : str) : list (str * info) :=
  fst (scan (split_on "010" full_text)).

Definition found_value (b : str) (table : list (str * info)) : option float :=
  match dict_get b table with
  | Some i => value i
  | None => None
  end.

(** ** process_pdf_to_json: the record *)

Record biomarker_entry := {
  e_value : float;            (* "value" *)
  e_unit : str;               (* "unit" *)
  e_range_text : str;         (* "reference_range" *)
  e_low : num;                (* "low" *)
  e_high : num                (* "high" *)
}.

(** [{"value": v, **r}] *)
Definition entry_of (v : float) (r : reference_range) : biomarker_entry :=
  {| e_value := v; e_unit := unit r; e_range_text := range_text r;
     e_low := low r; e_high := high r |}.

(** [for biomarker, info in biomarkers.items(): ...] filling
    [biomarkers_data]. *)
Fixpoint fill_data (table : list (str * info))
  (reference_ranges : list (str * reference_range))
  (biomarkers_data : list (str * biomarker_entry))
  : exc (list (str * biomarker_entry)) :=
  match table with
  | [] => Ok biomarkers_data
  | (biomarker, i) :: rest =>
      match value i with
      | Some v =>
          (r <- dict_item biomarker reference_ranges ;;
           fill_data rest reference_ranges
             (dict_set biomarker (entry_of v r) biomarkers_data))%exc
      | None => fill_data rest reference_ranges biomarkers_data
      end
  end.

Definition biomarkers_data_of (table : list (str * info))
  : exc (list (str * biomarker_entry)) :=
  fill_data table get_reference_ranges [].

Record report_info := {
  pdf_filename : str;
  processed_date : str
}.

Record json_data := {
  patient : patient_info;
  biomarkers_data : list (str * biomarker_entry);    (* "biomarkers" *)
  report : report_info                               (* "report_info" *)
}.

(** The record [process_pdf_to_json] builds from the text of a document;
    [now1] and [now2] are its two readings of the clock. *)
Definition json_of_text (pdf_path : str) (full_text : str)
  (now1 now2 : datetime) : exc json_data :=
  (patient_info <- extract_patient_info full_text now1 ;;
   let current_date := now2 in
   let table := extract_all full_text in
   data <- biomarkers_data_of table ;;
   Ok {| patient := patient_info;
         biomarkers_data := data;
         report := {| pdf_filename := basename pdf_path;
                      processed_date := strftime_stamp current_date |} |})%exc.

Definition build_json (pdf_path : str) (pages : list (option str))
  (now1 now2 : datetime) : exc json_data :=
  json_of_text pdf_path (full_text_of pages) now1 now2.

(** [process_pdf_to_json]: [pdf] is what opening and reading the document
    gives, the pages or an exception, and [save] is [save_biomarkers_json]
    on the record, patient name and date, which catches its own exceptions
    and answers [True] or [False].  Any exception up to there is caught
    and gives [False]. *)
Definition process_pdf_to_json (pdf_path : str) (pdf : exc (list (option str)))
  (now1 now2 : datetime) (save : json_data -> str -> datetime -> bool)
  : bool :=
  match (pages <- pdf ;; build_json pdf_path pages now1 now2)%exc with
  | Ok data => save data (name (patient data)) now2
  | Raised _ => false
  end.

(** The eight names of the vocabulary. *)
Definition vocabulary : list str :=
  [ py "Vitamin D"; py "Vitamin B12"; py "Total Cholesterol"; py "LDL";
    py "HDL"; py "Triglycerides"; py "Creatinine"; py "HbA1c" ].

(** ** Notions used in the statements *)

(** The attempt the scan makes for a biomarker at line [idx], when the
    biomarker has no value yet. *)
Definition attempt (lines : list str) (idx : nat) (biomarker : str)
  (aliases : list str) : option float :=
  fst (for_aliases lines idx (nth idx lines []) biomarker aliases).

(** The first attempt that succeeds among the lines [todo], the first of
    which has index [idx]. *)
Fixpoint first_attempt (lines : list str) (idx : nat) (todo : list str)
  (biomarker : str) (aliases : list str) : option float :=
  match todo with
  | [] => None
  | line :: todo' =>
      match fst (for_aliases lines idx line biomarker aliases) with
      | Some v => Some v
      | None => first_attempt lines (S idx) todo' biomarker aliases
      end
  end.

(** [js] up to and including its first element that [hit] holds of. *)
Fixpoint upto_first_hit (hit : nat -> bool) (js : list nat) : list nat :=
  match js with
  | [] => []
  | j :: rest => if hit j then [j] else j :: upto_first_hit hit rest
  end.

(** Line [j] yields a number for the biomarker. *)
Definition yields (lines : list str) (biomarker : str) (j : nat) : bool :=
  match extract_value_result (nth j lines []) biomarker with
  | Some _ => true
  | None => false
  end.

(** The lines at the given offsets from [idx] that exist. *)
Definition lines_at (lines : list str) (idx : nat) (offsets : list nat)
  : list nat :=
  filter (fun j => j <? List.length lines) (map (Nat.add idx) offsets).

(** The entries [biomarkers_data] gets from a table, in order. *)
Fixpoint present (table : list (str * info))
  (ranges : list (str * reference_range)) : list (str * biomarker_entry) :=
  match table with
  | [] => []
  | (b, i) :: rest =>
      match value i, dict_get b ranges with
      | Some v, Some r => (b, entry_of v r) :: present rest ranges
      | _, _ => present rest ranges
      end
  end.

(** A digit string, optionally followed by a point and a digit string. *)
Definition unsigned_decimal (w : str) : Prop :=
  exists ds1 dot ds2,
    w = ds1 ++ dot ++ ds2 /\ ds1 <> [] /\
    forallb Char.isdigit ds1 = true /\
    (dot = [] \/ dot = ["."%char]) /\
    forallb Char.isdigit ds2 = true.

(** What one line does to the entry of a biomarker. *)
Definition step_info (lines : list str) (idx : nat) (line biomarker : str)
  (i : info) : info :=
  match value i with
  | None =>
      {| patterns_of := patterns_of i;
         value := fst (for_aliases lines idx line biomarker (patterns_of i)) |}
  | Some _ => i
  end.

(** The table lists [aliases] for the biomarker. *)
Definition has_aliases (table : list (str * info)) (biomarker : str)
  (aliases : list str) : Prop :=
  exists i, In (biomarker, i) table /\ patterns_of i = aliases.

(** A pattern without groups. *)
Fixpoint groupless (r : Re.regex) : bool :=
  match r with
  | Re.Seq r1 r2 => groupless r1 && groupless r2
  | Re.Opt r' => groupless r'
  | Re.Group _ _ => false
  | _ => true
  end.

(** A digit or the point. *)
Definition dec_char (c : ascii) : bool := Char.isdigit c || chr_eqb c ".".

(** A reading of the clock for the examples: 7 March 2024, 09:05:00. *)
Definition sample_clock : datetime :=
  {| year := 2024; month := 3; day := 7;
     hour := 9; minute := 5; second := 0 |}.

(** ** get_patient_json_path and the path of save_biomarkers_json *)

(** The characters from [a] to [b]. *)
Definition char_range (a b : ascii) : list ascii :=
  map ascii_of_nat (seq (code a) (S (code b) - code a)).

(** The class of ["[^a-zA-Z0-9]"]. *)
Definition not_alphanumeric : Re.cls :=
  Re.NoneOf (char_range "a" "z" ++ char_range "A" "Z" ++ char_range "0" "9").

(** [re.sub(c, repl, s)] for a pattern that is one character class: every
    character of the class is replaced. *)
Definition re_sub_class (c : Re.cls) (repl : str) (s : str) : str :=
  flat_map (fun x => if Re.cls_match false c x then repl else [x]) s.

(** [d.strftime("%Y%m%d")], for the four-digit years a clock gives. *)
Definition strftime_ymd (d : datetime) : str :=
  zero_pad 4 (str_of_nat (year d))
  ++ zero_pad 2 (str_of_nat (month d))
  ++ zero_pad 2 (str_of_nat (day d)).

(** On the code points below 256 [lower] keeps the length of the name; a
    character whose lower case is longer, as U+0130, is not a character
    of this model. *)
Definition get_patient_json_path (patient_name : str) (date : datetime) : str :=
  let safe_name := re_sub_class not_alphanumeric (py "_") (lower patient_name) in
  let date_str := strftime_ymd date in
  let filename := safe_name ++ py "_" ++ date_str ++ py ".json" in
  filename.

(** [os.path.join(a, b)] *)
Definition os_path_join (a b : str) : str :=
  if startswith (py "/") b then b
  else match rev a with
       | [] => b
       | c :: _ => if chr_eqb c "/" then a ++ b else a ++ py "/" ++ b
       end.

(** The [filepath] of [save_biomarkers_json]. *)
Definition report_filepath (patient_name : str) (date : datetime) : str :=
  let filename := get_patient_json_path patient_name date in
  os_path_join (py "reports") filename.

(** A date as a clock gives it. *)
Definition clock_date (d : datetime) : Prop :=
  (1000 <= Z.of_nat (year d) <= 9999)%Z
  /\ 1 <= month d <= 12 /\ 1 <= day d <= 31.

(** What the sanitising of a name does to one character. *)
Definition safe_char (c : ascii) : ascii :=
  if Re.cls_match false not_alphanumeric (Char.lower c) then "_"%char
  else Char.lower c.

(** A small letter, a digit or the underscore. *)
Definition safe_name_char (c : ascii) : bool :=
  Char.isdigit c || ((97 <=? code c) && (code c <=? 122)) || chr_eqb c "_".

(** The same letter or digit up to case, or two characters that are
    neither. *)
Definition same_in_file_name (a b : ascii) : Prop :=
  (Char.lower a = Char.lower b
   /\ Re.cls_match false not_alphanumeric (Char.lower a) = false)
  \/ (Re.cls_match false not_alphanumeric (Char.lower a) = true
      /\ Re.cls_match false not_alphanumeric (Char.lower b) = true).

(** The texts of the pages that have some. *)
Fixpoint page_texts (pages : list (option str)) : list str :=
  match pages with
  | [] => []
  | Some (c :: text) :: rest => (c :: text) :: page_texts rest
  | _ :: rest => page_texts rest
  end.

(** An ASCII letter or digit. *)
Definition alphanumeric (c : ascii) : bool :=
  negb (Re.cls_match false not_alphanumeric c).

(** No whitespace at either end. *)
Definition trimmed (s : str) : Prop :=
  (forall c t, s = c :: t -> Char.isspace c = false) /\
  (forall t c, s = t ++ [c] -> Char.isspace c = false).

(** The groups of a match, in lower case. *)
Definition lower_caps (g : Re.caps) : Re.caps :=
  map (fun '(n, w) => (n, lower w)) g.

(** A way of matching, in lower case. *)
Definition lower_way (x : str * Re.caps) : str * Re.caps :=
  (lower (fst x), lower_caps (snd x)).

(** The number that the first of the lines [js] to yield one yields. *)
Fixpoint first_yield (lines : list str) (biomarker : str) (js : list nat)
  : option float :=
  match js with
  | [] => None
  | j :: rest =>
      match extract_value_result (nth j lines []) biomarker with
      | Some v => Some v
      | None => first_yield lines biomarker rest
      end
  end.

(** [s.isascii()] *)
Definition isascii (s : str) : bool := forallb (fun c => code c <? 128) s.

(** * Properties *)

(** A fact about one character, settled on each of the 256. *)
Ltac each_char c :=
  destruct c as [[] [] [] [] [] [] [] []]; vm_compute; intros;
  first [discriminate | reflexivity | repeat split].

(** ** extract_value: the wrapper *)

Lemma extract_value_eq (line biomarker_name : str) :
  extract_value line biomarker_name =
  match extract_value_try line biomarker_name with
  | Ok r => (Ok r, [])
  | Raised e =>
      (Ok None,
       [py "Error extracting " ++ biomarker_name ++ py ": " ++ exn_str e])
  end.
Proof.
  unfold extract_value, try_except, lift, on_error, bind, print, ret.
  destruct (extract_value_try line biomarker_name) as [[v|]|e]; reflexivity.
Qed.

Lemma extract_value_returns (line biomarker_name : str) :
  fst (extract_value line biomarker_name)
  = Ok (extract_value_result line biomarker_name).
Proof.
  unfold extract_value_result. rewrite extract_value_eq.
  destruct (extract_value_try line biomarker_name); reflexivity.
Qed.

Lemma on_error_eq (biomarker_name : str) (e : exn) :
  on_error biomarker_name e =
  (Ok None, [py "Error extracting " ++ biomarker_name ++ py ": " ++ exn_str e]).
Proof. reflexivity. Qed.

(** ** extract_value: cleaning *)

Lemma remove_char_app c a b :
  remove_char c (a ++ b) = remove_char c a ++ remove_char c b.
Proof. unfold remove_char. apply filter_app. Qed.

Lemma clean_app a b : clean (a ++ b) = clean a ++ clean b.
Proof. unfold clean. now rewrite !remove_char_app. Qed.

Lemma clean_marker c :
  In c [","%char; "<"%char; ">"%char] -> clean [c] = [].
Proof.
  simpl. intros [<-|[<-|[<-|[]]]]; reflexivity.
Qed.

Lemma clean_insert l1 l2 c :
  In c [","%char; "<"%char; ">"%char] ->
  clean (l1 ++ c :: l2) = clean (l1 ++ l2).
Proof.
  intros H. change (c :: l2) with ([c] ++ l2).
  rewrite !clean_app, (@clean_marker c H). reflexivity.
Qed.

Lemma extract_value_try_clean line line' name :
  clean line = clean line' ->
  extract_value_try line name = extract_value_try line' name.
Proof. unfold extract_value_try. intros ->. reflexivity. Qed.

Lemma extract_value_clean line line' name :
  clean line = clean line' ->
  extract_value line name = extract_value line' name.
Proof.
  intros H. rewrite !extract_value_eq.
  now rewrite (@extract_value_try_clean line line' name H).
Qed.

(** C9. Inserting a comma, a [<] or a [>] anywhere in a line does not
    change what [extract_value] returns, for any biomarker name: the
    three characters are removed before anything is matched. *)
Theorem extract_value_cleaning_invariant :
  forall (l1 l2 : str) (c : ascii) (biomarker_name : str),
    In c [","%char; "<"%char; ">"%char] ->
    extract_value (l1 ++ c :: l2) biomarker_name
    = extract_value (l1 ++ l2) biomarker_name
    /\ clean (l1 ++ c :: l2) = clean (l1 ++ l2)
    /\ ~ In c (clean (l1 ++ c :: l2)).
Proof.
  intros l1 l2 c name H. split; [|split].
  - apply extract_value_clean, clean_insert, H.
  - apply clean_insert, H.
  - unfold clean, remove_char. rewrite !filter_In.
    intros [[[_ H1] H2] H3].
    simpl in H. destruct H as [<-|[<-|[<-|[]]]]; discriminate.
Qed.

Lemma extract_value_cleaning_invariant_witness :
  extract_value (py "1,234 mg/dL") (py "Creatinine")
  = extract_value (py "1234 mg/dL") (py "Creatinine").
Proof.
  apply (@extract_value_cleaning_invariant
           (py "1") (py "234 mg/dL") ","%char (py "Creatinine")).
  simpl. auto.
Defined.

(** ** extract_value: the generic policy *)

Lemma py_float_ok w v : PyFloat.of_str w = Some v -> py_float w = Ok v.
Proof. unfold py_float. now intros ->. Qed.

Lemma py_float_fails w :
  PyFloat.of_str w = None -> exists msg, py_float w = Raised (ValueError msg).
Proof. unfold py_float. intros ->. eexists. reflexivity. Qed.

Lemma for_words_skip (l r : list str) :
  (forall t, In t l -> PyFloat.of_str t = None) ->
  for_words (l ++ r) = for_words r.
Proof.
  induction l as [|w l IH]; intros H; simpl; [reflexivity|].
  destruct (@py_float_fails w) as [msg ->]; [apply H; now left|].
  apply IH. intros t Ht. apply H. now right.
Qed.

Lemma for_words_none (l : list str) :
  (forall t, In t l -> PyFloat.of_str t = None) -> for_words l = Ok None.
Proof.
  intros H. rewrite <- (app_nil_r l). now rewrite for_words_skip.
Qed.

Lemma for_words_hit (w : str) (v : float) (r : list str) :
  PyFloat.of_str w = Some v -> for_words (w :: r) = Ok (Some v).
Proof. intros H. simpl. now rewrite (@py_float_ok _ _ H). Qed.

Lemma extract_value_try_generic line name :
  is_hba1c name = false ->
  extract_value_try line name = for_words (rev (split_ws (clean line))).
Proof. unfold extract_value_try. intros ->. reflexivity. Qed.

Lemma split_ws_aux_tokens (s cur t : str) :
  forallb (fun c => negb (Char.isspace c)) cur = true ->
  In t (split_ws_aux cur s) ->
  t <> [] /\ forallb (fun c => negb (Char.isspace c)) t = true.
Proof.
  revert cur. induction s as [|c s IH]; intros cur Hcur; simpl.
  - destruct cur as [|a cur]; [intros []|].
    intros [<-|[]]. split.
    + intros E. apply (f_equal (@List.length _)) in E.
      rewrite length_rev in E. discriminate.
    + rewrite forallb_forall in *. intros x Hx. apply Hcur.
      now apply in_rev.
  - destruct (Char.isspace c) eqn:Hc.
    + destruct cur as [|a cur].
      * apply IH. reflexivity.
      * intros [<-|Ht]; [|now apply (IH [])].
        split.
        -- intros E. apply (f_equal (@List.length _)) in E.
           rewrite length_rev in E. discriminate.
        -- rewrite forallb_forall in *. intros x Hx. apply Hcur.
           now apply in_rev.
    + apply IH. simpl. now rewrite Hc.
Qed.

Lemma split_ws_tokens (s t : str) :
  In t (split_ws s) ->
  t <> [] /\ forallb (fun c => negb (Char.isspace c)) t = true.
Proof. apply split_ws_aux_tokens. reflexivity. Qed.

(** C3. For a name that does not contain "hba1c" in any case,
    [extract_value] returns the rightmost token of the cleaned line that
    [float] accepts, where the tokens are the non-empty runs of
    non-whitespace characters; when [float] accepts no token it returns
    [None], and prints nothing. *)
Theorem extract_value_generic_policy :
  forall line biomarker_name : str,
    is_hba1c biomarker_name = false ->
    let tokens := split_ws (clean line) in
    (forall t, In t tokens ->
       t <> [] /\ forallb (fun c => negb (Char.isspace c)) t = true) /\
    (forall before tok after v,
       tokens = before ++ tok :: after ->
       PyFloat.of_str tok = Some v ->
       (forall t, In t after -> PyFloat.of_str t = None) ->
       extract_value line biomarker_name = (Ok (Some v), [])) /\
    ((forall t, In t tokens -> PyFloat.of_str t = None) ->
     extract_value line biomarker_name = (Ok None, [])).
Proof.
  intros line name Hn tokens. split; [|split].
  - intros t. apply split_ws_tokens.
  - intros before tok after v Ht Hv Hafter.
    rewrite extract_value_eq, (@extract_value_try_generic line _ Hn).
    fold tokens. rewrite Ht, rev_app_distr. simpl. rewrite <- app_assoc.
    rewrite for_words_skip.
    + simpl. now rewrite (@py_float_ok _ _ Hv).
    + intros t Hin. apply Hafter. now apply in_rev.
  - intros Hnone.
    rewrite extract_value_eq, (@extract_value_try_generic line _ Hn).
    rewrite for_words_none; [reflexivity|].
    intros t Hin. apply Hnone. now apply in_rev.
Qed.

Lemma extract_value_generic_policy_witness :
  extract_value (py "LDL-C 131.5 mg/dL") (py "LDL")
  = (Ok (Some (S754_finite false 4626744929681408 (-45))), [])
  /\ extract_value (py "LDL-C pending") (py "LDL") = (Ok None, []).
Proof.
  split.
  - apply (proj1 (proj2 (@extract_value_generic_policy
                           (py "LDL-C 131.5 mg/dL") (py "LDL") eq_refl))
             [py "LDL-C"] (py "131.5") [py "mg/dL"]).
    + reflexivity.
    + vm_compute. reflexivity.
    + intros t [<-|[]]. vm_compute. reflexivity.
  - apply (proj2 (proj2 (@extract_value_generic_policy
                           (py "LDL-C pending") (py "LDL") eq_refl))).
    intros t [<-|[<-|[]]]; vm_compute; reflexivity.
Defined.

(** ** The matcher: what a way of matching consumes and captures *)

Section Exec.

Variable ic : bool.

Lemma star_inv c s g s' g' :
  In (s', g') (Re.star ic c s g) ->
  g' = g /\ exists w, s = w ++ s'
                      /\ forallb (Re.cls_match ic c) w = true.
Proof.
  induction s as [|x s IH]; simpl.
  - intros [E|[]]. inversion E; subst. split; [reflexivity|].
    exists []. split; reflexivity.
  - destruct (Re.cls_match ic c x) eqn:Hx.
    + rewrite in_app_iff. simpl. intros [H|[E|[]]].
      * destruct (IH H) as [-> [w [-> Hw]]]. split; [reflexivity|].
        exists (x :: w). simpl. now rewrite Hx, Hw.
      * inversion E; subst. split; [reflexivity|].
        exists []. split; reflexivity.
    + intros [E|[]]. inversion E; subst. split; [reflexivity|].
      exists []. split; reflexivity.
Qed.

Lemma seq_inv r1 r2 s g s' g' :
  In (s', g') (Re.exec ic (Re.Seq r1 r2) s g) ->
  exists s1 g1, In (s1, g1) (Re.exec ic r1 s g)
                /\ In (s', g') (Re.exec ic r2 s1 g1).
Proof.
  simpl. rewrite in_flat_map. intros [[s1 g1] [H1 H2]]. eauto.
Qed.

Lemma chr_inv c s g s' g' :
  In (s', g') (Re.exec ic (Re.Chr c) s g) ->
  g' = g /\ exists x, s = x :: s' /\ Re.cls_match ic c x = true.
Proof.
  simpl. destruct s as [|x s]; [intros []|].
  destruct (Re.cls_match ic c x) eqn:Hx; [|intros []].
  intros [E|[]]. inversion E; subst. eauto.
Qed.

Lemma plus_inv c s g s' g' :
  In (s', g') (Re.exec ic (Re.Plus c) s g) ->
  g' = g /\ exists x w, s = x :: w ++ s'
                        /\ forallb (Re.cls_match ic c) (x :: w) = true.
Proof.
  simpl. destruct s as [|x s]; [intros []|].
  destruct (Re.cls_match ic c x) eqn:Hx; [|intros []].
  intros H. destruct (star_inv _ _ _ _ _ H) as [-> [w [-> Hw]]].
  split; [reflexivity|]. exists x, w. simpl. now rewrite Hx, Hw.
Qed.

Lemma opt_inv r s g s' g' :
  In (s', g') (Re.exec ic (Re.Opt r) s g) ->
  In (s', g') (Re.exec ic r s g) \/ (s' = s /\ g' = g).
Proof.
  simpl. rewrite in_app_iff. simpl. intros [H|[E|[]]]; [now left|].
  inversion E; subst. now right.
Qed.

Lemma group_inv n r s g s' g' :
  In (s', g') (Re.exec ic (Re.Group n r) s g) ->
  exists g0, In (s', g0) (Re.exec ic r s g)
             /\ g' = (n, firstn (List.length s - List.length s') s) :: g0.
Proof.
  simpl. rewrite in_map_iff. intros [[s0 g0] [E H]].
  inversion E; subst. eauto.
Qed.

Lemma eos_inv s g s' g' :
  In (s', g') (Re.exec ic Re.Eos s g) -> s' = s /\ g' = g.
Proof.
  simpl. destruct s as [|c [|d s]]; simpl.
  - intros [E|[]]. now inversion E.
  - destruct (chr_eqb c "010"); [|intros []].
    intros [E|[]]. now inversion E.
  - intros [].
Qed.

(** A pattern without groups leaves the groups as they are. *)
Lemma groupless_keeps r :
  groupless r = true ->
  forall s g s' g', In (s', g') (Re.exec ic r s g) -> g' = g.
Proof.
  induction r as [|c|r1 IH1 r2 IH2|c|c|r IH|n r IH|]; simpl; intros Hr s g s' g' H.
  - destruct H as [E|[]]. now inversion E.
  - now apply chr_inv in H.
  - apply andb_prop in Hr. destruct Hr as [H1 H2].
    apply seq_inv in H. destruct H as [s1 [g1 [Ha Hb]]].
    rewrite (IH2 H2 _ _ _ _ Hb). apply (IH1 H1 _ _ _ _ Ha).
  - now apply star_inv in H.
  - now apply plus_inv in H.
  - apply opt_inv in H. destruct H as [H|[_ ->]]; [|reflexivity].
    apply (IH Hr _ _ _ _ H).
  - discriminate.
  - now apply eos_inv in H.
Qed.

Lemma firstn_consumed (s w s' : str) :
  s = w ++ s' -> firstn (List.length s - List.length s') s = w.
Proof.
  intros ->. rewrite length_app.
  replace (List.length w + List.length s' - List.length s')
    with (List.length w + 0) by lia.
  rewrite firstn_app_2. simpl. apply app_nil_r.
Qed.

Lemma search_inv r s m :
  Re.search ic r s = Some m ->
  exists pre s0 s', s = pre ++ s0 /\ In (s', m) (Re.exec ic r s0 []).
Proof.
  induction s as [|x s IH]; simpl.
  - destruct (Re.exec ic r [] []) as [|[s' g] l] eqn:E; [discriminate|].
    intros H. inversion H; subst. exists [], [], s'. rewrite E.
    split; [reflexivity|now left].
  - destruct (Re.exec ic r (x :: s) []) as [|[s' g] l] eqn:E.
    + intros H. destruct (IH H) as [pre [s0 [s' [-> Hin]]]].
      exists (x :: pre), s0, s'. split; [reflexivity|assumption].
    + intros H. inversion H; subst. exists [], (x :: s), s'. rewrite E.
      split; [reflexivity|now left].
Qed.

End Exec.

(** ** The group of the four patterns *)

Lemma lower_is_dot x :
  chr_eqb (Char.lower "."%char) (Char.lower x) = true -> x = "."%char.
Proof. each_char x. Qed.

Lemma digits_forallb ic w :
  forallb (Re.cls_match ic Re.Digit) w = forallb Char.isdigit w.
Proof. induction w as [|x w IH]; simpl; [reflexivity|]. now rewrite IH. Qed.

Lemma number_group_inv ic s g s' g' :
  In (s', g') (Re.exec ic number_group s g) ->
  exists w, s = w ++ s' /\ g' = (1, w) :: g /\ unsigned_decimal w.
Proof.
  unfold number_group. intros H.
  apply group_inv in H. destruct H as [g0 [H ->]].
  apply seq_inv in H. destruct H as [s1 [g1 [H1 H]]].
  apply plus_inv in H1. destruct H1 as [-> [x [w1 [-> Hw1]]]].
  apply seq_inv in H. destruct H as [s2 [g2 [H2 H3]]].
  apply star_inv in H3. destruct H3 as [-> [w2 [-> Hw2]]].
  rewrite digits_forallb in Hw1, Hw2.
  apply opt_inv in H2. destruct H2 as [H2|[E ->]].
  - apply chr_inv in H2. destruct H2 as [-> [d [E Hd]]].
    assert (d = "."%char) as ->.
    { destruct ic; cbv [Re.cls_match] in Hd.
      - now apply lower_is_dot.
      - apply Ascii.eqb_eq in Hd. now symmetry. }
    exists ((x :: w1) ++ ["."%char] ++ w2). split; [|split].
    + rewrite E. simpl. now rewrite <- !app_assoc.
    + rewrite (@firstn_consumed _ ((x :: w1) ++ ["."%char] ++ w2) s');
        [reflexivity|].
      rewrite E. simpl. now rewrite <- !app_assoc.
    + exists (x :: w1), ["."%char], w2. repeat split; auto; discriminate.
  - exists ((x :: w1) ++ [] ++ w2). split; [|split].
    + rewrite <- E. simpl. now rewrite <- !app_assoc.
    + rewrite (@firstn_consumed _ ((x :: w1) ++ [] ++ w2) s');
        [reflexivity|].
      rewrite <- E. simpl. now rewrite <- !app_assoc.
    + exists (x :: w1), [], w2. repeat split; auto; discriminate.
Qed.

Lemma patterns_group p s m :
  In p patterns ->
  Re.search true p s = Some m ->
  exists w, Re.group 1 m = Some w /\ unsigned_decimal w.
Proof.
  intros Hp Hs. apply search_inv in Hs.
  destruct Hs as [pre [s0 [s' [_ H]]]].
  assert (number_first : forall tail, groupless tail = true ->
            In (s', m) (Re.exec true (Re.Seq number_group tail) s0 []) ->
            exists w, Re.group 1 m = Some w /\ unsigned_decimal w).
  { intros tail Ht Hin. apply seq_inv in Hin.
    destruct Hin as [s1 [g1 [H1 H2]]].
    apply number_group_inv in H1. destruct H1 as [w [_ [-> Hw]]].
    rewrite (@groupless_keeps true tail Ht _ _ _ _ H2). exists w. now split. }
  simpl in Hp. destruct Hp as [<-|[<-|[<-|[<-|[]]]]].
  - refine (number_first _ _ H). reflexivity.
  - unfold pattern_hplc_before in H. apply seq_inv in H.
    destruct H as [s1 [g1 [H1 H2]]].
    rewrite (@groupless_keeps true (Re.lit "H.P.L.C") eq_refl _ _ _ _ H1) in H2.
    apply seq_inv in H2. destruct H2 as [s2 [g2 [H2 H3]]].
    apply star_inv in H2. destruct H2 as [-> _].
    apply number_group_inv in H3. destruct H3 as [w [_ [-> Hw]]].
    exists w. now split.
  - refine (number_first _ _ H). reflexivity.
  - refine (number_first _ _ H). reflexivity.
Qed.

(** ** Rounding keeps the sign *)

Lemma shr_1_nonneg mrs : (0 <= shr_m mrs)%Z -> (0 <= shr_m (shr_1 mrs))%Z.
Proof.
  destruct mrs as [m r s]. simpl.
  destruct m as [|[p|p|]|[p|p|]]; simpl; lia.
Qed.

Lemma iter_shr_1_nonneg p mrs :
  (0 <= shr_m mrs)%Z -> (0 <= shr_m (iter_pos shr_1 p mrs))%Z.
Proof.
  revert mrs. induction p as [p IH|p IH|]; intros mrs H; simpl.
  - apply IH, IH, shr_1_nonneg, H.
  - apply IH, IH, H.
  - apply shr_1_nonneg, H.
Qed.

Lemma shr_nonneg mrs e n :
  (0 <= shr_m mrs)%Z -> (0 <= shr_m (fst (shr mrs e n)))%Z.
Proof.
  intros H. unfold shr. destruct n; simpl; auto.
  now apply iter_shr_1_nonneg.
Qed.

Lemma shr_fexp_nonneg m e l :
  (0 <= m)%Z -> (0 <= shr_m (fst (shr_fexp PyFloat.prec PyFloat.emax m e l)))%Z.
Proof.
  intros H. unfold shr_fexp. apply shr_nonneg.
  destruct l as [|[]]; simpl; exact H.
Qed.

Lemma round_nearest_even_nonneg m l :
  (0 <= m)%Z -> (0 <= round_nearest_even m l)%Z.
Proof.
  intros H. unfold round_nearest_even.
  destruct l as [|[]]; try lia. destruct (Z.even m); lia.
Qed.

Lemma binary_round_aux_nonneg m e l :
  (0 <= m)%Z ->
  PyFloat.nonneg (binary_round_aux PyFloat.prec PyFloat.emax false m e l) = true.
Proof.
  intros H. unfold binary_round_aux.
  pose proof (shr_fexp_nonneg e l H) as H1.
  destruct (shr_fexp PyFloat.prec PyFloat.emax m e l) as [mrs' e'] eqn:E1. simpl in H1.
  pose proof (@shr_fexp_nonneg
                (round_nearest_even (shr_m mrs') (loc_of_shr_record mrs'))
                e' loc_Exact (round_nearest_even_nonneg _ H1)) as H2.
  destruct (shr_fexp PyFloat.prec PyFloat.emax _ e' loc_Exact) as [mrs'' e''] eqn:E2.
  simpl in H2.
  destruct (shr_m mrs'') as [|q|q]; [reflexivity| |lia].
  destruct (e'' <=? PyFloat.emax - PyFloat.prec)%Z; reflexivity.
Qed.

Lemma binary_round_nonneg q e :
  PyFloat.nonneg (binary_round PyFloat.prec PyFloat.emax false q e) = true.
Proof.
  unfold binary_round.
  destruct (shl_align q e _) as [mz ez].
  apply binary_round_aux_nonneg. lia.
Qed.

Lemma div_core_nonneg p d :
  (0 < d)%Z ->
  (0 <= fst (fst (SFdiv_core_binary PyFloat.prec PyFloat.emax (Zpos p) 0 d 0)))%Z.
Proof.
  intros Hd. unfold SFdiv_core_binary.
  set (s := (0 - 0 - _)%Z).
  set (m' := match s with Zpos _ => Z.shiftl (Zpos p) s | Z0 => Zpos p
                     | Zneg _ => 0%Z end).
  assert (0 <= m')%Z as Hm.
  { unfold m'. destruct s; try lia. apply Z.shiftl_nonneg. lia. }
  pose proof (Z.div_pos m' d Hm Hd) as Hq. unfold Z.div in Hq.
  destruct (Z.div_eucl m' d) as [q r]. exact Hq.
Qed.

Lemma of_decimal_nonneg m e :
  PyFloat.nonneg (PyFloat.of_decimal false m e) = true.
Proof.
  unfold PyFloat.of_decimal. destruct m as [|p|p]; try reflexivity.
  destruct (0 <=? e)%Z eqn:He.
  - destruct (Zpos p * 10 ^ e)%Z; try reflexivity.
    apply binary_round_nonneg.
  - pose proof (@div_core_nonneg p (10 ^ (- e))%Z) as H.
    destruct (SFdiv_core_binary _ _ (Zpos p) 0 (10 ^ (- e)) 0)
      as [[q e'] l].
    apply binary_round_aux_nonneg. apply H.
    apply Z.leb_gt in He. apply Z.pow_pos_nonneg; lia.
Qed.

(** ** float of a digit string with an optional point *)

Lemma dec_char_facts c :
  dec_char c = true ->
  (code c <? 127) = true /\ chr_eqb c "_" = false
  /\ Char.is_c_space c = false.
Proof. each_char c. Qed.

Lemma digit_facts c :
  Char.isdigit c = true ->
  dec_char c = true /\ chr_eqb c "-" = false /\ chr_eqb c "+" = false
  /\ chr_eqb c "." = false.
Proof. each_char c. Qed.

Lemma to_ascii_id w : forallb dec_char w = true -> PyFloat.to_ascii w = w.
Proof.
  induction w as [|c w IH]; simpl; [reflexivity|].
  intros H. apply andb_prop in H. destruct H as [Hc Hw].
  destruct (@dec_char_facts _ Hc) as [-> _]. now rewrite IH.
Qed.

Lemma drop_underscores_id w prev :
  chr_eqb prev "_" = false ->
  forallb dec_char w = true -> PyFloat.drop_underscores prev w = Some w.
Proof.
  revert prev. induction w as [|c w IH]; simpl; intros prev Hp H.
  - now rewrite Hp.
  - apply andb_prop in H. destruct H as [Hc Hw].
    destruct (@dec_char_facts _ Hc) as [_ [Hu _]].
    rewrite Hu, Hp. simpl. now rewrite (IH c Hu Hw).
Qed.

Lemma lstrip_id w :
  (forall c w', w = c :: w' -> Char.is_c_space c = false) ->
  lstrip_by Char.is_c_space w = w.
Proof.
  destruct w as [|c w]; [reflexivity|]. intros H. simpl.
  now rewrite (H c w eq_refl).
Qed.

Lemma strip_id w :
  forallb dec_char w = true ->
  rstrip_by Char.is_c_space (lstrip_by Char.is_c_space w) = w.
Proof.
  intros H. rewrite forallb_forall in H.
  rewrite lstrip_id.
  - unfold rstrip_by. rewrite lstrip_id; [apply rev_involutive|].
    intros c w' E. apply dec_char_facts, H, in_rev. rewrite E. now left.
  - intros c w' ->. apply dec_char_facts, H. now left.
Qed.

Lemma span_digits_app ds rest :
  forallb Char.isdigit ds = true ->
  (forall c r, rest = c :: r -> Char.isdigit c = false) ->
  PyFloat.span_digits (ds ++ rest) = (ds, rest).
Proof.
  intros Hds Hrest. induction ds as [|d ds IH]; simpl.
  - destruct rest as [|c r]; [reflexivity|]. simpl.
    now rewrite (Hrest c r eq_refl).
  - simpl in Hds. apply andb_prop in Hds. destruct Hds as [Hd Hds].
    now rewrite Hd, (IH Hds).
Qed.

Lemma span_digits_all ds :
  forallb Char.isdigit ds = true -> PyFloat.span_digits ds = (ds, []).
Proof.
  intros H. rewrite <- (app_nil_r ds) at 1. apply span_digits_app; auto.
  discriminate.
Qed.

Lemma float_of_unsigned_decimal w :
  unsigned_decimal w ->
  exists v, PyFloat.of_str w = Some v /\ PyFloat.nonneg v = true.
Proof.
  intros [ds1 [dot [ds2 [-> [Hne [H1 [Hdot H2]]]]]]].
  assert (Hall : forallb dec_char (ds1 ++ dot ++ ds2) = true).
  { rewrite !forallb_app. rewrite forallb_forall in H1, H2.
    repeat (apply andb_true_intro; split).
    - apply forallb_forall. intros c Hc. now apply digit_facts, H1.
    - destruct Hdot as [->| ->]; reflexivity.
    - apply forallb_forall. intros c Hc. now apply digit_facts, H2. }
  unfold PyFloat.of_str.
  rewrite (@to_ascii_id _ Hall).
  rewrite (@drop_underscores_id _ "000"%char eq_refl Hall).
  rewrite (@strip_id _ Hall).
  destruct ds1 as [|d ds1]; [now elim Hne|].
  simpl in H1. apply andb_prop in H1. destruct H1 as [Hd H1].
  destruct (@digit_facts _ Hd) as [_ [Hm [Hp _]]].
  assert (Hs : PyFloat.parse_sign ((d :: ds1) ++ dot ++ ds2)
               = (false, (d :: ds1) ++ dot ++ ds2)).
  { simpl. now rewrite Hm, Hp. }
  rewrite Hs.
  assert (H1' : forallb Char.isdigit (d :: ds1) = true)
    by (simpl; now rewrite Hd, H1).
  unfold PyFloat.parse_decimal.
  destruct Hdot as [->| ->].
  - simpl app at 2.
    rewrite span_digits_all
      by (rewrite forallb_app; now rewrite H1', H2).
    rewrite app_nil_r. simpl.
    eexists. split; [reflexivity|]. apply of_decimal_nonneg.
  - rewrite span_digits_app; [|exact H1'|].
    2:{ intros c r E. simpl in E. inversion E; subst. reflexivity. }
    change (["."%char] ++ ds2) with ("."%char :: ds2). cbv beta iota.
    change (chr_eqb "." ".") with true. cbv beta iota.
    rewrite (@span_digits_all _ H2). simpl.
    eexists. split; [reflexivity|]. apply of_decimal_nonneg.
Qed.

(** ** extract_value: the patterns of HbA1c *)

Lemma float_of_group_ok p s m :
  In p patterns ->
  Re.search true p s = Some m ->
  exists w v, Re.group 1 m = Some w /\ unsigned_decimal w
              /\ float_of_group m = Ok v
              /\ PyFloat.of_str w = Some v /\ PyFloat.nonneg v = true.
Proof.
  intros Hp Hs. destruct (@patterns_group p s m Hp Hs) as [w [Hg Hw]].
  destruct (@float_of_unsigned_decimal w Hw) as [v [Hv Hn]].
  exists w, v. repeat split; auto.
  unfold float_of_group. rewrite Hg. now apply py_float_ok.
Qed.

(** The loop over the patterns returns at the first pattern that matches,
    with the float of its group. *)
Lemma for_patterns_first (before after : list Re.regex) p s m :
  (forall q, In q before -> Re.search true q s = None) ->
  Re.search true p s = Some m ->
  for_patterns (before ++ p :: after) s
  = exc_bind (float_of_group m) (fun v => Ok (Some v)).
Proof.
  intros Hb Hp. induction before as [|q before IH]; simpl.
  - now rewrite Hp.
  - rewrite (Hb q) by now left. apply IH. intros r Hr. apply Hb. now right.
Qed.

Lemma for_patterns_none (ps : list Re.regex) s :
  (forall q, In q ps -> Re.search true q s = None) ->
  for_patterns ps s = Ok None.
Proof.
  induction ps as [|q ps IH]; simpl; intros H; [reflexivity|].
  rewrite (H q) by now left. apply IH. intros r Hr. apply H. now right.
Qed.

Lemma for_patterns_ok (ps : list Re.regex) s :
  (forall q, In q ps -> In q patterns) ->
  exists r, for_patterns ps s = Ok r
            /\ forall v, r = Some v -> PyFloat.nonneg v = true.
Proof.
  induction ps as [|q ps IH]; simpl; intros H.
  - exists None. split; [reflexivity|discriminate].
  - destruct (Re.search true q s) as [m|] eqn:E.
    + destruct (@float_of_group_ok q s m) as [w [v [_ [_ [-> [_ Hn]]]]]];
        [apply H; now left|exact E|].
      exists (Some v). split; [reflexivity|]. intros v' Hv.
      inversion Hv; subst. exact Hn.
    + apply IH. intros r Hr. apply H. now right.
Qed.

Lemma for_words_ok (ws : list str) : exists r, for_words ws = Ok r.
Proof.
  induction ws as [|w ws IH]; simpl; [eauto|].
  unfold py_float. destruct (PyFloat.of_str w); eauto.
Qed.

(** The [try] block of [extract_value] raises nothing, so that its
    [except] clause never runs and nothing is printed. *)
Lemma extract_value_try_ok line name :
  exists r, extract_value_try line name = Ok r.
Proof.
  unfold extract_value_try. destruct (is_hba1c name).
  - destruct (@for_patterns_ok patterns (clean line)) as [r [-> _]]; [auto|].
    simpl. destruct r; [eauto|apply for_words_ok].
  - simpl. apply for_words_ok.
Qed.

Lemma extract_value_silent line name :
  extract_value line name = (Ok (extract_value_result line name), []).
Proof.
  unfold extract_value_result. rewrite extract_value_eq.
  destruct (extract_value_try_ok line name) as [r ->]. reflexivity.
Qed.

(** C8. [extract_value] is total and lets no exception out: on every line
    and name it returns a number or [None]; whatever exception its [try]
    block raises, the [except] clause turns it into [None] and one line of
    diagnostic; and on strings the [try] block raises none. *)
Theorem extract_value_never_raises :
  (forall line biomarker_name : str,
      exists (v : option float) (out : list str),
        extract_value line biomarker_name = (Ok v, out)) /\
  (forall (biomarker_name : str) (e : exn) (out : list str),
      try_except (Raised e, out) (on_error biomarker_name)
      = (Ok None,
         out ++ [py "Error extracting " ++ biomarker_name
                 ++ py ": " ++ exn_str e])) /\
  (forall line biomarker_name : str,
      exists r, extract_value_try line biomarker_name = Ok r).
Proof.
  split; [|split].
  - intros line biomarker_name. rewrite extract_value_eq.
    destruct (extract_value_try line biomarker_name) as [r|e];
      eexists; eexists; reflexivity.
  - intros. reflexivity.
  - apply extract_value_try_ok.
Qed.

(** What holds of the HbA1c patterns: the first pattern of the list that
    matches decides, and the number returned is the float of its group, a
    digit string with an optional point, hence not negative. *)
Lemma hba1c_first_pattern_decides line name before p after m :
  is_hba1c name = true ->
  patterns = before ++ p :: after ->
  (forall q, In q before -> Re.search true q (clean line) = None) ->
  Re.search true p (clean line) = Some m ->
  exists w v,
    Re.group 1 m = Some w /\ unsigned_decimal w /\
    PyFloat.of_str w = Some v /\ PyFloat.nonneg v = true /\
    extract_value line name = (Ok (Some v), []).
Proof.
  intros Hn Hps Hb Hp.
  destruct (@float_of_group_ok p (clean line) m) as [w [v [Hg [Hw [Hf [Hv Hnn]]]]]].
  { rewrite Hps. apply in_elt. }
  { exact Hp. }
  exists w, v. repeat split; auto.
  rewrite extract_value_eq. unfold extract_value_try. rewrite Hn, Hps.
  rewrite (@for_patterns_first before after p (clean line) m Hb Hp), Hf.
  reflexivity.
Qed.

Lemma hba1c_examples :
  extract_value (py "H.P.L.C 6.1") (py "HbA1c")
  = (Ok (Some (S754_finite false 6867989431740006 (-50))), [])
  /\ extract_value (py "6.1 %") (py "HbA1c")
     = (Ok (Some (S754_finite false 6867989431740006 (-50))), [])
  /\ PyFloat.of_str (py "6.1")
     = Some (S754_finite false 6867989431740006 (-50)).
Proof. vm_compute. repeat split. Qed.

(** C2. On the line "5 abc" none of the four patterns matches, and
    [extract_value] for HbA1c does not return [None]: it goes on to the
    loop over the words and returns 5.0. *)
Theorem hba1c_no_pattern_falls_through :
  (forall p, In p patterns ->
     Re.search true p (clean (py "5 abc")) = None) /\
  is_hba1c (py "HbA1c") = true /\
  extract_value (py "5 abc") (py "HbA1c")
  = (Ok (Some (S754_finite false 5629499534213120 (-50))), []) /\
  PyFloat.of_str (py "5")
  = Some (S754_finite false 5629499534213120 (-50)).
Proof.
  split; [|vm_compute; repeat split].
  intros p [<-|[<-|[<-|[<-|[]]]]]; vm_compute; reflexivity.
Qed.

(** C10. On the line "-5 abc" [extract_value] for HbA1c returns -5.0, a
    negative number: no pattern matches and the loop over the words
    takes the token "-5".  The same loop returns exponent notation, as
    on "1e3 abc". *)
Theorem hba1c_value_can_be_negative :
  is_hba1c (py "HbA1c") = true /\
  extract_value (py "-5 abc") (py "HbA1c")
  = (Ok (Some (S754_finite true 5629499534213120 (-50))), []) /\
  PyFloat.nonneg (S754_finite true 5629499534213120 (-50)) = false /\
  PyFloat.of_str (py "-5")
  = Some (S754_finite true 5629499534213120 (-50)) /\
  extract_value (py "1e3 abc") (py "HbA1c")
  = (Ok (PyFloat.of_str (py "1e3")), []) /\
  PyFloat.of_str (py "1e3")
  = Some (S754_finite false 8796093022208000 (-43)).
Proof. vm_compute. repeat split. Qed.

(** ** Strings and dictionaries *)

Lemma str_eqb_eq (a b : str) : str_eqb a b = true <-> a = b.
Proof.
  unfold str_eqb. destruct (list_eq_dec ascii_dec a b); split; auto.
  discriminate.
Qed.

Lemma str_eqb_neq (a b : str) : str_eqb a b = false <-> a <> b.
Proof.
  unfold str_eqb. destruct (list_eq_dec ascii_dec a b); split; auto;
    [discriminate|contradiction].
Qed.

Lemma str_eqb_refl (a : str) : str_eqb a a = true.
Proof. now apply str_eqb_eq. Qed.

Lemma dict_get_in {V} (k : str) (v : V) d : dict_get k d = Some v -> In (k, v) d.
Proof.
  induction d as [|[k' v'] d IH]; simpl; [discriminate|].
  destruct (str_eqb k' k) eqn:E.
  - apply str_eqb_eq in E. intros H. inversion H; subst. now left.
  - intros H. right. now apply IH.
Qed.

Lemma in_dict_get {V} (k : str) (v : V) d :
  NoDup (keys d) -> In (k, v) d -> dict_get k d = Some v.
Proof.
  induction d as [|[k' v'] d IH]; simpl; [intros _ []|].
  intros Hnd [E|Hin].
  - inversion E; subst. now rewrite str_eqb_refl.
  - inversion Hnd as [|? ? Hnotin Hnd']; subst.
    destruct (str_eqb k' k) eqn:E.
    + apply str_eqb_eq in E. subst. elim Hnotin.
      change k with (fst (k, v)). now apply in_map.
    + now apply IH.
Qed.

Lemma dict_get_none {V} (k : str) (d : list (str * V)) :
  dict_get k d = None <-> ~ In k (keys d).
Proof.
  induction d as [|[k' v'] d IH]; simpl; [tauto|].
  destruct (str_eqb k' k) eqn:E.
  - apply str_eqb_eq in E. split; [discriminate|]. intros H. elim H. now left.
  - apply str_eqb_neq in E. rewrite IH. tauto.
Qed.

Lemma dict_set_fresh {V} (k : str) (v : V) d :
  ~ In k (keys d) -> dict_set k v d = d ++ [(k, v)].
Proof.
  induction d as [|[k' v'] d IH]; simpl; [reflexivity|].
  intros H. destruct (str_eqb k' k) eqn:E.
  - apply str_eqb_eq in E. elim H. now left.
  - rewrite IH; [reflexivity|]. intros Hin. apply H. now right.
Qed.

Lemma nodup_check (l : list str) :
  nodup (list_eq_dec ascii_dec) l = l -> NoDup l.
Proof. intros <-. apply NoDup_nodup. Qed.

Lemma incl_check (l1 l2 : list str) :
  forallb (fun k => existsb (str_eqb k) l2) l1 = true -> incl l1 l2.
Proof.
  rewrite forallb_forall. intros H k Hk. specialize (H k Hk).
  apply existsb_exists in H. destruct H as [x [Hx E]].
  apply str_eqb_eq in E. now subst.
Qed.

Lemma biomarkers_keys_nodup : NoDup (keys biomarkers).
Proof. apply nodup_check. vm_compute. reflexivity. Qed.

Lemma biomarkers_keys_vocabulary : incl (keys biomarkers) vocabulary.
Proof. apply incl_check. vm_compute. reflexivity. Qed.

Lemma vocabulary_keys_biomarkers : incl vocabulary (keys biomarkers).
Proof. apply incl_check. vm_compute. reflexivity. Qed.

Lemma biomarkers_have_ranges b :
  In b (keys biomarkers) -> dict_get b get_reference_ranges <> None.
Proof.
  intros H Hn. apply dict_get_none in Hn. apply Hn.
  assert (Hi : incl (keys biomarkers) (keys get_reference_ranges))
    by (apply incl_check; vm_compute; reflexivity).
  now apply Hi.
Qed.

Lemma biomarkers_no_value b i : In (b, i) biomarkers -> value i = None.
Proof.
  simpl. intros H.
  repeat (destruct H as [H|H]; [inversion H; reflexivity|]). destruct H.
Qed.

(** ** The scan: what a line does to the table *)

Lemma for_biomarkers_cons lines idx line k i table :
  fst (for_biomarkers lines idx line ((k, i) :: table))
  = (k, step_info lines idx line k i)
      :: fst (for_biomarkers lines idx line table).
Proof.
  simpl. unfold step_info.
  destruct (value i); [|destruct (for_aliases _ _ _ _ _)];
    destruct (for_biomarkers lines idx line table); reflexivity.
Qed.

Lemma step_info_patterns lines idx line k i :
  patterns_of (step_info lines idx line k i) = patterns_of i.
Proof. unfold step_info. destruct (value i); reflexivity. Qed.

Lemma for_biomarkers_keys lines idx line table :
  keys (fst (for_biomarkers lines idx line table)) = keys table.
Proof.
  induction table as [|[b i] table IH]; [reflexivity|].
  rewrite for_biomarkers_cons. simpl. now f_equal.
Qed.

Lemma for_biomarkers_get lines idx line table b :
  dict_get b (fst (for_biomarkers lines idx line table))
  = option_map (step_info lines idx line b) (dict_get b table).
Proof.
  induction table as [|[k i] table IH]; [reflexivity|].
  rewrite for_biomarkers_cons. simpl.
  destruct (str_eqb k b) eqn:E; [|exact IH].
  apply str_eqb_eq in E. now subst.
Qed.

Lemma for_biomarkers_aliases lines idx line table b als :
  has_aliases (fst (for_biomarkers lines idx line table)) b als ->
  has_aliases table b als.
Proof.
  unfold has_aliases. induction table as [|[k i] table IH].
  - intros [i [[] _]].
  - rewrite for_biomarkers_cons. intros [j [[E|Hin] Hp]].
    + inversion E; subst. exists i. split; [now left|].
      symmetry. apply step_info_patterns.
    + destruct IH as [i' [Hi' Hp']]; [now exists j|].
      exists i'. split; [now right|assumption].
Qed.

Lemma scan_from_keys lines todo idx table :
  keys (fst (scan_from lines idx todo table)) = keys table.
Proof.
  revert idx table. induction todo as [|line todo IH]; intros idx table;
    simpl; [reflexivity|].
  pose proof (for_biomarkers_keys lines idx line table) as Hk.
  destruct (for_biomarkers lines idx line table) as [table' evs].
  specialize (IH (S idx) table').
  destruct (scan_from lines (S idx) todo table') as [table'' evs'].
  simpl in *. now rewrite IH.
Qed.

Lemma info_eta i : {| patterns_of := patterns_of i; value := value i |} = i.
Proof. now destruct i. Qed.

Lemma scan_from_get lines todo idx table b i :
  dict_get b table = Some i ->
  dict_get b (fst (scan_from lines idx todo table))
  = Some match value i with
         | Some _ => i
         | None => {| patterns_of := patterns_of i;
                      value := first_attempt lines idx todo b (patterns_of i) |}
         end.
Proof.
  revert idx table i. induction todo as [|line todo IH]; intros idx table i Hi.
  - simpl. rewrite Hi. f_equal. destruct i as [p [v|]]; reflexivity.
  - simpl.
    pose proof (for_biomarkers_get lines idx line table b) as Hg.
    destruct (for_biomarkers lines idx line table) as [table' evs].
    simpl in Hg. rewrite Hi in Hg. simpl in Hg.
    specialize (IH (S idx) table' _ Hg).
    destruct (scan_from lines (S idx) todo table') as [table'' evs'].
    simpl in *. rewrite IH. f_equal. unfold step_info.
    destruct (value i) as [v|] eqn:Ev.
    + now rewrite Ev.
    + simpl. destruct (fst (for_aliases lines idx line b (patterns_of i)));
        reflexivity.
Qed.


Lemma scan_found lines b i :
  dict_get b biomarkers = Some i ->
  found_value b (fst (scan lines))
  = first_attempt lines 0 lines b (patterns_of i).
Proof.
  intros Hi. unfold found_value, scan.
  rewrite (@scan_from_get lines lines 0 biomarkers b i Hi).
  now rewrite (@biomarkers_no_value b i (@dict_get_in _ b i biomarkers Hi)).
Qed.

(** ** The first attempt that succeeds *)

Lemma first_attempt_at lines b als todo idx k v :
  k < List.length todo ->
  fst (for_aliases lines (idx + k) (nth k todo []) b als) = Some v ->
  (forall j, j < k ->
     fst (for_aliases lines (idx + j) (nth j todo []) b als) = None) ->
  first_attempt lines idx todo b als = Some v.
Proof.
  revert idx k. induction todo as [|line todo IH]; intros idx k Hk Hv Hb;
    simpl in *; [lia|].
  destruct k as [|k].
  - rewrite Nat.add_0_r in Hv. now rewrite Hv.
  - pose proof (Hb 0 (Nat.lt_0_succ k)) as H0. rewrite Nat.add_0_r in H0.
    simpl in H0. rewrite H0. apply (IH (S idx) k); [lia| |].
    + now rewrite Nat.add_succ_comm.
    + intros j Hj. rewrite Nat.add_succ_comm. apply (Hb (S j)). lia.
Qed.

Lemma first_attempt_some lines b als todo idx v :
  first_attempt lines idx todo b als = Some v ->
  exists k, k < List.length todo
    /\ fst (for_aliases lines (idx + k) (nth k todo []) b als) = Some v
    /\ forall j, j < k ->
         fst (for_aliases lines (idx + j) (nth j todo []) b als) = None.
Proof.
  revert idx. induction todo as [|line todo IH]; intros idx; simpl;
    [discriminate|].
  destruct (fst (for_aliases lines idx line b als)) as [u|] eqn:E.
  - intros H. inversion H; subst. exists 0. rewrite Nat.add_0_r.
    repeat split; [lia|assumption|intros j Hj; lia].
  - intros H. destruct (IH _ H) as [k [Hk [Hv Hb]]].
    exists (S k). rewrite <- Nat.add_succ_comm. repeat split; [lia|exact Hv|].
    intros [|j] Hj.
    + now rewrite Nat.add_0_r.
    + rewrite <- Nat.add_succ_comm. apply Hb. lia.
Qed.





(** ** The lines the scan parses *)

Lemma upto_first_hit_incl hit js j : In j (upto_first_hit hit js) -> In j js.
Proof.
  induction js as [|x js IH]; simpl; [auto|].
  destruct (hit x); simpl; intuition.
Qed.

Lemma lines_at_after lines idx offsets j :
  In j (lines_at lines idx offsets) ->
  j < List.length lines /\ exists o, In o offsets /\ j = idx + o.
Proof.
  unfold lines_at. rewrite filter_In, in_map_iff.
  intros [[o [<- Ho]] Hlt]. apply Nat.ltb_lt in Hlt. eauto.
Qed.

Lemma for_offsets_parsed lines idx b offsets :
  snd (for_offsets lines idx b offsets)
  = upto_first_hit (yields lines b) (lines_at lines idx offsets).
Proof.
  unfold lines_at. induction offsets as [|o offsets IH]; [reflexivity|].
  cbn [for_offsets map filter].
  destruct (idx + o <? List.length lines) eqn:E; [|exact IH].
  cbn [upto_first_hit]. unfold yields at 1.
  destruct (extract_value_result (nth (idx + o) lines []) b); [reflexivity|].
  destruct (for_offsets lines idx b offsets). simpl in *. now f_equal.
Qed.

Lemma for_aliases_events lines idx line b als e :
  In e (snd (for_aliases lines idx line b als)) ->
  ev_line e = idx /\ ev_biomarker e = b /\ In (ev_alias e) als /\
  alias_in (ev_alias e) line = true /\
  ev_parsed e = if str_eqb b (py "HbA1c")
                then upto_first_hit (yields lines b) (lines_at lines idx [1; 2])
                else [idx].
Proof.
  induction als as [|p als IH]; [intros []|].
  cbn [for_aliases]. destruct (alias_in p line) eqn:Ep.
  - destruct (str_eqb b (py "HbA1c")) eqn:Eb.
    + pose proof (for_offsets_parsed lines idx b [1; 2]) as Hp.
      destruct (for_offsets lines idx b [1; 2]) as [found parsed].
      simpl in Hp. subst parsed.
      destruct found as [val|].
      * intros [<-|[]]. simpl. repeat split; auto.
      * destruct (for_aliases lines idx line b als) as [r evs].
        simpl in *. intros [<-|Hin]; [simpl; repeat split; auto|].
        destruct (IH Hin) as [H1 [H2 [H3 [H4 H5]]]]. repeat split; auto.
    + destruct (extract_value_result line b).
      * intros [<-|[]]. simpl. repeat split; auto.
      * destruct (for_aliases lines idx line b als) as [r evs].
        simpl in *. intros [<-|Hin]; [simpl; repeat split; auto|].
        destruct (IH Hin) as [H1 [H2 [H3 [H4 H5]]]]. repeat split; auto.
  - intros Hin. destruct (IH Hin) as [H1 [H2 [H3 [H4 H5]]]].
    repeat split; auto. now right.
Qed.

Lemma for_biomarkers_events lines idx line table e :
  In e (snd (for_biomarkers lines idx line table)) ->
  exists als, has_aliases table (ev_biomarker e) als /\
    ev_line e = idx /\ In (ev_alias e) als /\
    alias_in (ev_alias e) line = true /\
    ev_parsed e = if str_eqb (ev_biomarker e) (py "HbA1c")
                  then upto_first_hit (yields lines (ev_biomarker e))
                         (lines_at lines idx [1; 2])
                  else [idx].
Proof.
  induction table as [|[b i] table IH]; [intros []|].
  cbn [for_biomarkers].
  assert (Hrest : In e (snd (for_biomarkers lines idx line table)) ->
                  exists als, has_aliases ((b, i) :: table) (ev_biomarker e) als /\
                    ev_line e = idx /\ In (ev_alias e) als /\
                    alias_in (ev_alias e) line = true /\
                    ev_parsed e = if str_eqb (ev_biomarker e) (py "HbA1c")
                                  then upto_first_hit (yields lines (ev_biomarker e))
                                         (lines_at lines idx [1; 2])
                                  else [idx]).
  { intros Hin. destruct (IH Hin) as [als [[i' [Hi' Hp']] H]].
    exists als. split; [|exact H]. exists i'. split; [now right|assumption]. }
  destruct (value i) eqn:Ev.
  - destruct (for_biomarkers lines idx line table) as [rest' evs'].
    simpl in *. exact Hrest.
  - pose proof (@for_aliases_events lines idx line b (patterns_of i) e) as Ha.
    destruct (for_aliases lines idx line b (patterns_of i)) as [v evs].
    destruct (for_biomarkers lines idx line table) as [rest' evs'].
    simpl in *. rewrite in_app_iff. intros [Hin|Hin]; [|now apply Hrest].
    destruct (Ha Hin) as [H1 [H2 [H3 [H4 H5]]]].
    exists (patterns_of i). rewrite H2. repeat split; auto.
    exists i. split; [now left|reflexivity].
Qed.

Lemma skipn_cons_nth (lines : list str) idx line todo :
  skipn idx lines = line :: todo ->
  nth idx lines [] = line /\ idx < List.length lines
  /\ skipn (S idx) lines = todo.
Proof.
  revert idx. induction lines as [|l lines IH]; intros idx.
  - rewrite skipn_nil. discriminate.
  - destruct idx as [|idx]; simpl.
    + intros H. inversion H; subst. repeat split. lia.
    + intros H. destruct (IH idx H) as [H1 [H2 H3]].
      repeat split; auto. lia.
Qed.

Lemma scan_from_events lines todo idx table e :
  skipn idx lines = todo ->
  In e (snd (scan_from lines idx todo table)) ->
  exists als, has_aliases table (ev_biomarker e) als /\
    ev_line e < List.length lines /\ In (ev_alias e) als /\
    alias_in (ev_alias e) (nth (ev_line e) lines []) = true /\
    ev_parsed e = if str_eqb (ev_biomarker e) (py "HbA1c")
                  then upto_first_hit (yields lines (ev_biomarker e))
                         (lines_at lines (ev_line e) [1; 2])
                  else [ev_line e].
Proof.
  revert idx table. induction todo as [|line todo IH]; intros idx table Hs;
    [intros []|].
  cbn [scan_from].
  destruct (@skipn_cons_nth lines idx line todo Hs) as [Hline [Hlt Hs']].
  pose proof (@for_biomarkers_events lines idx line table e) as Hb.
  pose proof (@for_biomarkers_aliases lines idx line table (ev_biomarker e))
    as Hal.
  destruct (for_biomarkers lines idx line table) as [table' evs].
  specialize (IH (S idx) table' Hs').
  destruct (scan_from lines (S idx) todo table') as [table'' evs'].
  simpl in *. rewrite in_app_iff. intros [Hin|Hin].
  - destruct (Hb Hin) as [als [H0 [H1 [H2 [H3 H4]]]]].
    exists als. rewrite H1, Hline. repeat split; auto.
  - destruct (IH Hin) as [als [H0 H]]. exists als. split; [|exact H].
    now apply Hal.
Qed.

(** ** The biomarker mapping of the record *)

Lemma present_in table ranges b e :
  In (b, e) (present table ranges) <->
  exists i v r, In (b, i) table /\ value i = Some v
                /\ dict_get b ranges = Some r /\ e = entry_of v r.
Proof.
  induction table as [|[k i] table IH]; simpl.
  - split; [intros []|intros [i [v [r [[] _]]]]].
  - destruct (value i) as [v|] eqn:Ev;
      [destruct (dict_get k ranges) as [r|] eqn:Er|]; simpl; rewrite ?IH.
    + split.
      * intros [E|[i' [v' [r' [Hin H]]]]].
        -- inversion E; subst. exists i, v, r. repeat split; auto.
        -- exists i', v', r'. split; [now right|exact H].
      * intros [i' [v' [r' [[E|Hin] [Hv [Hr He]]]]]].
        -- inversion E; subst. left. f_equal. congruence.
        -- right. exists i', v', r'. auto.
    + split.
      * intros [i' [v' [r' [Hin H]]]]. exists i', v', r'.
        split; [now right|exact H].
      * intros [i' [v' [r' [[E|Hin] [Hv [Hr He]]]]]].
        -- inversion E; subst. congruence.
        -- exists i', v', r'. auto.
    + split.
      * intros [i' [v' [r' [Hin H]]]]. exists i', v', r'.
        split; [now right|exact H].
      * intros [i' [v' [r' [[E|Hin] [Hv [Hr He]]]]]].
        -- inversion E; subst. congruence.
        -- exists i', v', r'. auto.
Qed.

Lemma present_keys table ranges b :
  In b (keys (present table ranges)) -> In b (keys table).
Proof.
  unfold keys. rewrite !in_map_iff. intros [[k e] [<- Hin]].
  apply present_in in Hin. destruct Hin as [i [_ [_ [Hin _]]]].
  exists (k, i). now split.
Qed.

Lemma present_nodup table ranges :
  NoDup (keys table) -> NoDup (keys (present table ranges)).
Proof.
  induction table as [|[k i] table IH]; simpl; intros H; [constructor|].
  inversion H as [|? ? Hk Hnd]; subst.
  destruct (value i); [destruct (dict_get k ranges)|]; auto.
  simpl. constructor; auto. intros Hin. apply Hk.
  now apply present_keys in Hin.
Qed.

Lemma fill_data_present table ranges acc :
  NoDup (keys table) ->
  (forall k, In k (keys table) -> ~ In k (keys acc)) ->
  (forall k, In k (keys table) -> dict_get k ranges <> None) ->
  fill_data table ranges acc = Ok (acc ++ present table ranges).
Proof.
  revert acc. induction table as [|[k i] table IH]; simpl; intros acc Hnd Hacc Hr.
  - now rewrite app_nil_r.
  - inversion Hnd as [|? ? Hk Hnd']; subst.
    destruct (value i) as [v|].
    + unfold dict_item. destruct (dict_get k ranges) as [r|] eqn:Er.
      * simpl. rewrite dict_set_fresh by (apply Hacc; now left).
        rewrite IH; auto.
        -- now rewrite <- app_assoc.
        -- intros k' Hk'. unfold keys. rewrite map_app, in_app_iff.
           simpl. intros [H|[H|[]]].
           ++ apply (Hacc k'); auto.
           ++ subst. contradiction.
      * elim (Hr k); auto.
    + apply IH; auto.
Qed.

Lemma found_value_in table b v :
  NoDup (keys table) ->
  found_value b table = Some v <->
  exists i, In (b, i) table /\ value i = Some v.
Proof.
  intros Hnd. unfold found_value. split.
  - destruct (dict_get b table) as [i|] eqn:E; [|discriminate].
    intros Hv. exists i. split; [now apply dict_get_in|exact Hv].
  - intros [i [Hin Hv]]. now rewrite (@in_dict_get _ b i table Hnd Hin).
Qed.

(** The mapping that goes into the record of a scanned table. *)
Lemma biomarkers_data_of_scan lines :
  biomarkers_data_of (fst (scan lines))
  = Ok (present (fst (scan lines)) get_reference_ranges).
Proof.
  unfold biomarkers_data_of, scan.
  pose proof (scan_from_keys lines lines 0 biomarkers) as Hk.
  rewrite fill_data_present; [reflexivity| | |].
  - rewrite Hk. apply biomarkers_keys_nodup.
  - intros k _ [].
  - intros k. rewrite Hk. apply biomarkers_have_ranges.
Qed.

(** C7. The biomarker mapping of the record has an entry for a name
    exactly when the scan found a value for it, the entry being the value
    joined with the reference range of that name; a name without a value
    has no entry; every key is one of the eight names, and none is there
    twice. *)
Theorem biomarkers_data_exact :
  forall full_text : str,
    let table := extract_all full_text in
    exists data,
      biomarkers_data_of table = Ok data /\
      (forall b e,
          In (b, e) data <->
          exists v r, found_value b table = Some v
                      /\ dict_get b get_reference_ranges = Some r
                      /\ e = {| e_value := v; e_unit := unit r;
                                e_range_text := range_text r;
                                e_low := low r; e_high := high r |}) /\
      (forall b, found_value b table = None -> ~ In b (keys data)) /\
      (forall b, In b (keys data) -> In b vocabulary) /\
      NoDup (keys data).
Proof.
  intros full_text table. unfold table, extract_all.
  set (lines := split_on "010" full_text).
  assert (Hk : keys (fst (scan lines)) = keys biomarkers)
    by apply scan_from_keys.
  assert (Hnd : NoDup (keys (fst (scan lines))))
    by (rewrite Hk; apply biomarkers_keys_nodup).
  exists (present (fst (scan lines)) get_reference_ranges).
  split; [apply biomarkers_data_of_scan|]. split; [|split; [|split]].
  - intros b e. rewrite present_in. split.
    + intros [i [v [r [Hin [Hv [Hr He]]]]]]. exists v, r.
      repeat split; auto. apply (@found_value_in _ b v Hnd). eauto.
    + intros [v [r [Hv [Hr He]]]].
      apply (@found_value_in _ b v Hnd) in Hv. destruct Hv as [i [Hin Hv]].
      exists i, v, r. auto.
  - intros b Hnone Hin. unfold keys in Hin. apply in_map_iff in Hin.
    destruct Hin as [[k e] [<- Hin]]. apply present_in in Hin.
    destruct Hin as [i [v [r [Hin [Hv _]]]]]. simpl in Hnone.
    assert (found_value k (fst (scan lines)) = Some v) as E
        by (apply (@found_value_in _ k v Hnd); eauto).
    congruence.
  - intros b Hin. apply biomarkers_keys_vocabulary. rewrite <- Hk.
    now apply present_keys in Hin.
  - now apply present_nodup.
Qed.

(** ** extract_patient_info *)

Lemma patient_from_lines_unknown lines now :
  (forall line, In line lines -> contains (py "NAME") line = false) ->
  patient_from_lines lines now = Ok (unknown_patient now).
Proof.
  induction lines as [|l lines IH]; intros H; [reflexivity|].
  cbn [patient_from_lines]. rewrite (H l) by now left.
  apply IH. intros line Hin. apply H. now right.
Qed.

Lemma patient_from_lines_first skipped line rest m now :
  (forall l, In l skipped ->
     contains (py "NAME") l = false
     \/ Re.search false name_pattern l = None) ->
  contains (py "NAME") line = true ->
  Re.search false name_pattern line = Some m ->
  patient_from_lines (skipped ++ line :: rest) now = patient_of_match m now.
Proof.
  intros Hs Hc Hm. induction skipped as [|l skipped IH].
  - cbn [app patient_from_lines]. now rewrite Hc, Hm.
  - cbn [app patient_from_lines].
    assert (IH' : patient_from_lines (skipped ++ line :: rest) now
                  = patient_of_match m now)
      by (apply IH; intros x Hx; apply Hs; now right).
    destruct (Hs l) as [E|E]; [now left| |].
    + now rewrite E.
    + rewrite E. now destruct (contains (py "NAME") l).
Qed.

(** C6. When no line of the text contains "NAME", [extract_patient_info]
    returns the name "Unknown" without age or gender, dated by the clock,
    and the record is built all the same, with that patient. *)
Theorem missing_marker_sentinel :
  forall (full_text : str) (now1 : datetime),
    (forall line, In line (split_on "010" full_text) ->
                  contains (py "NAME") line = false) ->
    extract_patient_info full_text now1
    = Ok {| name := py "Unknown"; age := None; gender := None;
            date := strftime_date now1 |}
    /\ forall (pdf_path : str) (now2 : datetime),
         exists data,
           json_of_text pdf_path full_text now1 now2
           = Ok {| patient := {| name := py "Unknown"; age := None;
                                 gender := None;
                                 date := strftime_date now1 |};
                   biomarkers_data := data;
                   report := {| pdf_filename := basename pdf_path;
                                processed_date := strftime_stamp now2 |} |}.
Proof.
  intros full_text now1 H.
  assert (E : extract_patient_info full_text now1 = Ok (unknown_patient now1))
    by (apply patient_from_lines_unknown, H).
  split; [exact E|].
  intros pdf_path now2. unfold json_of_text. rewrite E. simpl exc_bind.
  unfold extract_all. rewrite biomarkers_data_of_scan. eexists. reflexivity.
Qed.

Lemma missing_marker_sentinel_witness :
  extract_patient_info (py "LDL-C 100 mg/dL")
    sample_clock
  = Ok {| name := py "Unknown"; age := None; gender := None;
          date := py "2024-03-07" |}.
Proof.
  apply (@missing_marker_sentinel (py "LDL-C 100 mg/dL")
           sample_clock).
  intros line [<-|[]]. vm_compute. reflexivity.
Defined.

(** C5, as the claim has it, fails: the first line with "NAME" is the
    line "NAME" itself, from which alone nothing but "Unknown" comes, and
    yet the name, the age and the gender returned are those of the second
    line. *)
Lemma first_name_line_counterexample :
  find (contains (py "NAME"))
       (split_on "010" (py "NAME" ++ ["010"%char] ++ py "NAME: Bob (45Y/M)"))
  = Some (py "NAME")
  /\ extract_patient_info (py "NAME") sample_clock
     = Ok {| name := py "Unknown"; age := None; gender := None;
             date := py "2024-03-07" |}
  /\ extract_patient_info
       (py "NAME" ++ ["010"%char] ++ py "NAME: Bob (45Y/M)") sample_clock
     = Ok {| name := py "Dr. Bob"; age := Some 45%Z; gender := Some (py "M");
             date := py "2024-03-07" |}
  /\ extract_patient_info
       (py "NAME" ++ ["010"%char] ++ py "NAME: Bob (45Y/M)") sample_clock
     <> extract_patient_info (py "NAME") sample_clock.
Proof. vm_compute. repeat split. discriminate. Qed.

(** C5, amended.  [extract_patient_info] takes the first line that
    contains "NAME" and that the name pattern matches: lines before it
    that lack the marker, or have it where the pattern does not match, are
    passed over, and the lines after it are not looked at; name, age and
    gender come from the match on that line alone. *)
Theorem first_matching_name_line :
  forall (full_text : str) (now : datetime)
         (skipped : list str) (line : str) (rest : list str) (m : Re.caps),
    split_on "010" full_text = skipped ++ line :: rest ->
    (forall l, In l skipped ->
       contains (py "NAME") l = false
       \/ Re.search false name_pattern l = None) ->
    contains (py "NAME") line = true ->
    Re.search false name_pattern line = Some m ->
    extract_patient_info full_text now = patient_of_match m now
    /\ forall rest' : list str,
         patient_from_lines (skipped ++ line :: rest') now
         = extract_patient_info full_text now.
Proof.
  intros full_text now skipped line rest m Hsplit Hs Hc Hm.
  unfold extract_patient_info. rewrite Hsplit. split.
  - now apply patient_from_lines_first.
  - intros rest'. now rewrite !(@patient_from_lines_first skipped line _ m now Hs Hc Hm).
Qed.

Lemma first_matching_name_line_witness :
  extract_patient_info
    (py "NAME" ++ ["010"%char] ++ py "NAME: Bob (45Y/M)" ++ ["010"%char]
     ++ py "NAME: Eve (30Y/F)")
    sample_clock
  = Ok {| name := py "Dr. Bob"; age := Some 45%Z; gender := Some (py "M");
          date := py "2024-03-07" |}.
Proof.
  apply (@first_matching_name_line
           (py "NAME" ++ ["010"%char] ++ py "NAME: Bob (45Y/M)"
            ++ ["010"%char] ++ py "NAME: Eve (30Y/F)")
           sample_clock
           [py "NAME"] (py "NAME: Bob (45Y/M)") [py "NAME: Eve (30Y/F)"]
           [(3, py "M"); (2, py "45"); (1, py "Bob ")]).
  - vm_compute. reflexivity.
  - intros l [<-|[]]. right. vm_compute. reflexivity.
  - vm_compute. reflexivity.
  - vm_compute. reflexivity.
Defined.

Lemma biomarkers_data_exact_witness :
  exists data,
    biomarkers_data_of (extract_all (py "LDL-C 100 mg/dL")) = Ok data /\
    (forall b e,
        In (b, e) data <->
        exists v r, found_value b (extract_all (py "LDL-C 100 mg/dL")) = Some v
                    /\ dict_get b get_reference_ranges = Some r
                    /\ e = {| e_value := v; e_unit := unit r;
                              e_range_text := range_text r;
                              e_low := low r; e_high := high r |}) /\
    (forall b, found_value b (extract_all (py "LDL-C 100 mg/dL")) = None ->
               ~ In b (keys data)) /\
    (forall b, In b (keys data) -> In b vocabulary) /\
    NoDup (keys data).
Proof. apply (biomarkers_data_exact (py "LDL-C 100 mg/dL")). Defined.

(** The mapping of a text with an LDL line and nothing else. *)
Example biomarkers_data_ldl :
  biomarkers_data_of (extract_all (py "LDL-C 100 mg/dL"))
  = Ok [(py "LDL",
         {| e_value := S754_finite false 7036874417766400 (-46);
            e_unit := py "mg/dL"; e_range_text := py "<100";
            e_low := Int 0; e_high := Int 100 |})].
Proof. vm_compute. reflexivity. Qed.

(** The number of the cleaning example is 1234.0. *)
Example creatinine_1234 :
  extract_value (py "1,234 mg/dL") (py "Creatinine")
  = (Ok (Some (S754_finite false 5427189394702336 (-42))), [])
  /\ PyFloat.of_str (py "1234")
     = Some (S754_finite false 5427189394702336 (-42)).
Proof. vm_compute. split; reflexivity. Qed.

(** * Further properties *)

(** ** Splitting at a character *)

Lemma split_on_no_sep sep s :
  ~ In sep s -> split_on sep s = [s].
Proof.
  induction s as [|c s IH]; intros H; [reflexivity|].
  cbn [split_on]. destruct (chr_eqb c sep) eqn:E.
  - apply Ascii.eqb_eq in E. subst. elim H. now left.
  - rewrite IH; [reflexivity|]. intros Hin. apply H. now right.
Qed.

Lemma split_on_nonempty sep s : split_on sep s <> [].
Proof.
  destruct s as [|c s]; cbn [split_on]; [discriminate|].
  destruct (chr_eqb c sep); [discriminate|].
  destruct (split_on sep s); discriminate.
Qed.

Lemma split_on_app sep a b :
  ~ In sep a ->
  split_on sep (a ++ sep :: b) = a :: split_on sep b.
Proof.
  induction a as [|c a IH]; intros H.
  - cbn [app split_on]. unfold chr_eqb. now rewrite Ascii.eqb_refl.
  - cbn [app split_on]. destruct (chr_eqb c sep) eqn:E.
    + apply Ascii.eqb_eq in E. subst. elim H. now left.
    + rewrite IH; [reflexivity|]. intros Hin. apply H. now right.
Qed.

Lemma split_on_app_any sep a b :
  split_on sep (a ++ sep :: b) = split_on sep a ++ split_on sep b.
Proof.
  induction a as [|c a IH].
  - cbn [app split_on]. unfold chr_eqb. now rewrite Ascii.eqb_refl.
  - cbn [app split_on]. destruct (chr_eqb c sep); [now rewrite IH|].
    rewrite IH. pose proof (split_on_nonempty sep a) as Hne.
    destruct (split_on sep a); [now elim Hne|reflexivity].
Qed.

(** ** The file name of a report *)

Lemma safe_name_map n :
  re_sub_class not_alphanumeric (py "_") (lower n) = map safe_char n.
Proof.
  unfold re_sub_class, lower. induction n as [|c n IH]; [reflexivity|].
  cbn [map flat_map]. rewrite IH. unfold safe_char.
  destruct (Re.cls_match false not_alphanumeric (Char.lower c)); reflexivity.
Qed.

Lemma safe_char_ok c : safe_name_char (safe_char c) = true.
Proof. each_char c. Qed.

Lemma safe_name_char_facts c :
  safe_name_char c = true ->
  chr_eqb c "/" = false /\ chr_eqb c "." = false /\ Char.isspace c = false.
Proof. each_char c. Qed.

Lemma uint_digits u :
  forallb Char.isdigit (py (NilEmpty.string_of_uint u)) = true.
Proof. induction u; simpl; auto. Qed.

Lemma zero_pad_digits w s :
  forallb Char.isdigit s = true -> forallb Char.isdigit (zero_pad w s) = true.
Proof.
  intros H. unfold zero_pad. rewrite forallb_app, H, andb_true_r.
  induction (w - List.length s); simpl; auto.
Qed.

Lemma zero_pad_length w s :
  List.length s <= w -> List.length (zero_pad w s) = w.
Proof.
  intros H. unfold zero_pad. rewrite length_app, repeat_length. lia.
Qed.

Lemma str_of_nat_short n :
  n < 100 -> List.length (str_of_nat n) <= 2.
Proof.
  intros H.
  assert (A : forallb (fun k => List.length (str_of_nat k) <=? 2) (seq 0 100)
              = true) by (vm_compute; reflexivity).
  rewrite forallb_forall in A. apply Nat.leb_le, A, in_seq. lia.
Qed.

Lemma str_of_nat_year n :
  n < 100 * 100 -> List.length (str_of_nat n) <= 4.
Proof.
  intros H.
  assert (A : forallb (fun k => List.length (str_of_nat k) <=? 4)
                (seq 0 (100 * 100)) = true) by (vm_compute; reflexivity).
  rewrite forallb_forall in A. apply Nat.leb_le, A, in_seq. lia.
Qed.

Lemma strftime_ymd_digits d :
  forallb Char.isdigit (strftime_ymd d) = true.
Proof.
  unfold strftime_ymd, str_of_nat. rewrite !forallb_app.
  now rewrite !zero_pad_digits by apply uint_digits.
Qed.

Lemma strftime_ymd_length d :
  clock_date d -> List.length (strftime_ymd d) = 8.
Proof.
  intros [Hy [Hm Hd]]. unfold strftime_ymd. rewrite !length_app.
  rewrite (@zero_pad_length 4) by (apply str_of_nat_year; lia).
  rewrite !(@zero_pad_length 2) by (apply str_of_nat_short; lia).
  reflexivity.
Qed.

Lemma file_name_no_slash n d : ~ In "/"%char (get_patient_json_path n d).
Proof.
  unfold get_patient_json_path. rewrite safe_name_map.
  rewrite !in_app_iff. intros [H|[H|[H|H]]].
  - apply in_map_iff in H. destruct H as [c [E _]].
    pose proof (@safe_name_char_facts _ (safe_char_ok c)) as [F _].
    rewrite E in F. discriminate.
  - simpl in H. destruct H as [H|[]]. discriminate.
  - pose proof (strftime_ymd_digits d) as A. rewrite forallb_forall in A.
    specialize (A _ H). discriminate.
  - simpl in H. repeat (destruct H as [H|H]; [discriminate|]). destruct H.
Qed.

(** X1. For a date as a clock gives it, the file name of a report is the
    sanitised name, made of small letters, digits and underscores only,
    then an underscore, eight digits and ".json"; it has no slash, so
    that the file is written directly under "reports/" and its base name
    is that file name.  For a name of ASCII characters the sanitised name
    is the name character by character, of the same length. *)
Theorem report_file_name_shape :
  forall (patient_name : str) (date : datetime),
    clock_date date ->
    exists safe ds,
      safe = re_sub_class not_alphanumeric (py "_") (lower patient_name)
      /\ get_patient_json_path patient_name date
         = safe ++ py "_" ++ ds ++ py ".json"
      /\ forallb safe_name_char safe = true
      /\ List.length ds = 8 /\ forallb Char.isdigit ds = true
      /\ ~ In "/"%char (get_patient_json_path patient_name date)
      /\ report_filepath patient_name date
         = py "reports/" ++ get_patient_json_path patient_name date
      /\ basename (report_filepath patient_name date)
         = get_patient_json_path patient_name date
      /\ (isascii patient_name = true ->
          safe = map safe_char patient_name
          /\ List.length safe = List.length patient_name).
Proof.
  intros n d Hd.
  exists (re_sub_class not_alphanumeric (py "_") (lower n)), (strftime_ymd d).
  assert (Hns := @file_name_no_slash n d).
  assert (Hp : report_filepath n d = py "reports/" ++ get_patient_json_path n d).
  { unfold report_filepath, os_path_join.
    destruct (get_patient_json_path n d) as [|c r] eqn:E; [reflexivity|].
    cbn [startswith py list_ascii_of_string].
    destruct (chr_eqb "/" c) eqn:Ec.
    - apply Ascii.eqb_eq in Ec. subst c. elim Hns. now left.
    - reflexivity. }
  split; [reflexivity|]. split; [reflexivity|]. split.
  { rewrite safe_name_map, forallb_forall. intros c Hc.
    apply in_map_iff in Hc. destruct Hc as [x [<- _]]. apply safe_char_ok. }
  split; [now apply strftime_ymd_length|].
  split; [apply strftime_ymd_digits|].
  split; [exact Hns|]. split; [exact Hp|]. split.
  - rewrite Hp. unfold basename.
    change (py "reports/" ++ get_patient_json_path n d)
      with (py "reports" ++ "/"%char :: get_patient_json_path n d).
    rewrite split_on_app by (vm_compute; intuition discriminate).
    rewrite (@split_on_no_sep "/"%char _ Hns). reflexivity.
  - intros _. rewrite safe_name_map. split; [reflexivity|apply length_map].
Qed.

Lemma report_file_name_shape_witness :
  exists safe ds,
    safe = re_sub_class not_alphanumeric (py "_") (lower (py "Dr. Bob Smith"))
    /\ get_patient_json_path (py "Dr. Bob Smith") sample_clock
       = safe ++ py "_" ++ ds ++ py ".json"
    /\ forallb safe_name_char safe = true
    /\ List.length ds = 8 /\ forallb Char.isdigit ds = true
    /\ ~ In "/"%char (get_patient_json_path (py "Dr. Bob Smith") sample_clock)
    /\ report_filepath (py "Dr. Bob Smith") sample_clock
       = py "reports/" ++ get_patient_json_path (py "Dr. Bob Smith") sample_clock
    /\ basename (report_filepath (py "Dr. Bob Smith") sample_clock)
       = get_patient_json_path (py "Dr. Bob Smith") sample_clock
    /\ (isascii (py "Dr. Bob Smith") = true ->
        safe = map safe_char (py "Dr. Bob Smith")
        /\ List.length safe = List.length (py "Dr. Bob Smith")).
Proof.
  apply (@report_file_name_shape (py "Dr. Bob Smith") sample_clock).
  unfold clock_date. simpl. lia.
Defined.

Lemma safe_char_same a b :
  safe_char a = safe_char b <-> same_in_file_name a b.
Proof.
  unfold same_in_file_name, safe_char.
  destruct (Re.cls_match false not_alphanumeric (Char.lower a)) eqn:Ea;
    destruct (Re.cls_match false not_alphanumeric (Char.lower b)) eqn:Eb.
  - split; auto.
  - split.
    + intros E. rewrite <- E in Eb. discriminate.
    + intros [[_ H]|[_ H]]; discriminate.
  - split.
    + intros E. rewrite E in Ea. discriminate.
    + intros [[E _]|[H _]]; [|discriminate]. rewrite E in Ea. congruence.
  - split.
    + intros E. left. now split.
    + intros [[E _]|[H _]]; [exact E|discriminate].
Qed.

Lemma safe_names_agree (n1 n2 : str) :
  map safe_char n1 = map safe_char n2 <-> Forall2 same_in_file_name n1 n2.
Proof.
  split.
  - revert n2. induction n1 as [|a n1 IH]; intros [|b n2] E;
      try discriminate; constructor.
    + apply safe_char_same. now inversion E.
    + apply IH. now inversion E.
  - intros H. induction H as [|a b m1 m2 Hab _ IH]; [reflexivity|].
    cbn [map]. f_equal; [now apply safe_char_same|exact IH].
Qed.

(** X2. Two patient names of ASCII characters give the same report file
    on the same date exactly when they have the same length and agree
    place by place, where letters and digits count up to case and all
    other characters count as the same: such reports overwrite each
    other. *)
Theorem report_file_collision :
  forall (n1 n2 : str) (date : datetime),
    isascii n1 = true -> isascii n2 = true ->
    (get_patient_json_path n1 date = get_patient_json_path n2 date
     <-> Forall2 same_in_file_name n1 n2).
Proof.
  intros n1 n2 d _ _. unfold get_patient_json_path. rewrite !safe_name_map.
  rewrite <- safe_names_agree. split.
  - intros E. now apply app_inv_tail in E.
  - intros E. now rewrite E.
Qed.

Lemma report_file_collision_witness :
  get_patient_json_path (py "Dr. A-B") sample_clock
  = get_patient_json_path (py "dr_ a b") sample_clock.
Proof.
  apply (proj2 (@report_file_collision (py "Dr. A-B") (py "dr_ a b")
                  sample_clock eq_refl eq_refl)).
  repeat (apply Forall2_cons;
          [vm_compute;
           first [left; split; reflexivity | right; split; reflexivity]|]).
  apply Forall2_nil.
Defined.

(** ** The lines of the full text *)

Lemma full_text_of_texts pages :
  full_text_of pages
  = flat_map (fun t => t ++ ["010"%char]) (page_texts pages).
Proof.
  induction pages as [|[[|c t]|] pages IH]; cbn [full_text_of page_texts flat_map];
    auto. rewrite IH. now rewrite <- app_assoc.
Qed.

(** X9. The lines that are scanned are the lines of the pages that have
    text, page after page in order, followed by one empty line; a page
    without text adds nothing. *)
Theorem full_text_lines :
  forall pages : list (option str),
    split_on "010" (full_text_of pages)
    = flat_map (split_on "010") (page_texts pages) ++ [[]].
Proof.
  intros pages. rewrite full_text_of_texts.
  induction (page_texts pages) as [|t ts IH]; [reflexivity|].
  cbn [flat_map]. rewrite <- app_assoc. cbn [app].
  rewrite split_on_app_any, IH. now rewrite app_assoc.
Qed.

(** ** What the name pattern captures *)

Lemma exec_length ic r :
  forall s g s' g',
    In (s', g') (Re.exec ic r s g) -> List.length s' <= List.length s.
Proof.
  induction r as [|c|r1 IH1 r2 IH2|c|c|r IH|n r IH|]; intros s g s' g' H.
  - destruct H as [E|[]]. inversion E. lia.
  - apply chr_inv in H. destruct H as [_ [x [-> _]]]. simpl. lia.
  - apply seq_inv in H. destruct H as [s1 [g1 [Ha Hb]]].
    apply IH1 in Ha. apply IH2 in Hb. lia.
  - apply star_inv in H. destruct H as [_ [w [-> _]]].
    rewrite length_app. lia.
  - apply plus_inv in H. destruct H as [_ [x [w [-> _]]]].
    simpl. rewrite length_app. lia.
  - apply opt_inv in H. destruct H as [H|[-> _]]; [now apply IH in H|lia].
  - apply group_inv in H. destruct H as [g0 [H _]]. now apply IH in H.
  - apply eos_inv in H. destruct H as [-> _]. lia.
Qed.

Lemma search_suffix_length ic r s m :
  Re.search ic r s = Some m ->
  exists s0 s', In (s', m) (Re.exec ic r s0 [])
                /\ List.length s0 <= List.length s.
Proof.
  intros H. apply search_inv in H. destruct H as [pre [s0 [s' [-> Hin]]]].
  exists s0, s'. split; [exact Hin|]. rewrite length_app. lia.
Qed.

Lemma not_paren_match w :
  forallb (Re.cls_match false (Re.NoneOf ["("%char])) w = true ->
  ~ In "("%char w.
Proof.
  rewrite forallb_forall. intros H Hin. specialize (H _ Hin).
  vm_compute in H. discriminate.
Qed.

Lemma one_of_MF x :
  Re.cls_match false (Re.OneOf ["M"%char; "F"%char]) x = true ->
  [x] = py "M" \/ [x] = py "F".
Proof. each_char x; auto. Qed.

(** A match of the name pattern has group 1, a non-empty text without an
    opening parenthesis, and either nothing else or both group 2, a digit
    string, and group 3, "M" or "F". *)
Lemma name_pattern_groups line m :
  Re.search false name_pattern line = Some m ->
  exists w,
    w <> [] /\ ~ In "("%char w /\
    (m = [(1, w)]
     \/ exists ds g,
          m = [(3, g); (2, ds); (1, w)] /\ ds <> []
          /\ forallb Char.isdigit ds = true
          /\ List.length ds <= List.length line
          /\ (g = py "M" \/ g = py "F")).
Proof.
  intros Hs. apply search_suffix_length in Hs.
  destruct Hs as [s0 [s' [H Hlen]]].
  unfold name_pattern in H.
  apply seq_inv in H. destruct H as [s1 [g1 [H1 H]]].
  pose proof (@exec_length _ _ _ _ _ _ H1) as L1.
  rewrite (@groupless_keeps false (Re.lit "NAME") eq_refl _ _ _ _ H1) in H.
  clear H1.
  apply seq_inv in H. destruct H as [s2 [g2 [H2 H]]].
  pose proof (@exec_length _ _ _ _ _ _ H2) as L2.
  apply star_inv in H2. destruct H2 as [-> _].
  apply seq_inv in H. destruct H as [s3 [g3 [H3 H]]].
  pose proof (@exec_length _ _ _ _ _ _ H3) as L3.
  rewrite (@groupless_keeps false (Re.Opt (Re.Chr (Re.Lit ":"))) eq_refl
             _ _ _ _ H3) in H. clear H3.
  apply seq_inv in H. destruct H as [s4 [g4 [H4 H]]].
  pose proof (@exec_length _ _ _ _ _ _ H4) as L4.
  apply star_inv in H4. destruct H4 as [-> _].
  apply seq_inv in H. destruct H as [s5 [g5 [H5 H]]].
  pose proof (@exec_length _ _ _ _ _ _ H5) as L5.
  apply group_inv in H5. destruct H5 as [g0 [H5 ->]].
  apply plus_inv in H5. destruct H5 as [-> [x [w [E5 Hw]]]].
  rewrite (@firstn_consumed s4 (x :: w) s5 E5) in H.
  exists (x :: w). split; [discriminate|]. split; [now apply not_paren_match|].
  apply opt_inv in H. destruct H as [H|[_ ->]]; [|now left].
  right.
  apply seq_inv in H. destruct H as [s6 [g6 [H6 H]]].
  pose proof (@exec_length _ _ _ _ _ _ H6) as L6.
  apply chr_inv in H6. destruct H6 as [-> _].
  apply seq_inv in H. destruct H as [s7 [g7 [H7 H]]].
  apply group_inv in H7. destruct H7 as [g0 [H7 ->]].
  apply plus_inv in H7. destruct H7 as [-> [d [ds [E7 Hds]]]].
  rewrite (@firstn_consumed s6 (d :: ds) s7 E7) in H.
  apply seq_inv in H. destruct H as [s8 [g8 [H8 H]]].
  rewrite (@groupless_keeps false (Re.lit "Y/") eq_refl _ _ _ _ H8) in H.
  clear H8.
  apply seq_inv in H. destruct H as [s9 [g9 [H9 H]]].
  apply group_inv in H9. destruct H9 as [g0 [H9 ->]].
  apply chr_inv in H9. destruct H9 as [-> [c [E9 Hc]]].
  rewrite (@firstn_consumed s8 [c] s9 E9) in H.
  apply chr_inv in H. destruct H as [-> _].
  exists (d :: ds), [c]. repeat split.
  - discriminate.
  - now rewrite digits_forallb in Hds.
  - apply (f_equal (@List.length _)) in E7. simpl in E7.
    rewrite length_app in E7. simpl. lia.
  - now apply one_of_MF.
Qed.

(** ** int of a digit string *)

Lemma digits_are_dec ds :
  forallb Char.isdigit ds = true -> forallb dec_char ds = true.
Proof.
  rewrite !forallb_forall. intros H c Hc. unfold dec_char.
  now rewrite (H c Hc).
Qed.

Lemma digits_val_acc ds acc :
  (0 <= acc)%Z ->
  (0 <= fold_left (fun a c => (10 * a + Char.digit_val c)%Z) ds acc)%Z.
Proof.
  revert acc. induction ds as [|d ds IH]; intros acc H; cbn [fold_left];
    [exact H|].
  apply IH. pose proof (Nat2Z.is_nonneg (code d - 48)) as Hd.
  unfold Char.digit_val. lia.
Qed.

Lemma digits_val_nonneg ds : (0 <= PyFloat.digits_val ds)%Z.
Proof. apply digits_val_acc. lia. Qed.

Lemma py_int_digits ds :
  ds <> [] -> forallb Char.isdigit ds = true ->
  List.length ds <= int_max_str_digits ->
  py_int ds = Ok (PyFloat.digits_val ds).
Proof.
  intros Hne Hds Hlen. pose proof (@digits_are_dec _ Hds) as Hdec.
  unfold py_int.
  rewrite (@to_ascii_id _ Hdec), (@strip_id _ Hdec).
  destruct ds as [|d ds]; [now elim Hne|].
  assert (Hd : Char.isdigit d = true)
    by (simpl in Hds; now apply andb_prop in Hds).
  destruct (@digit_facts _ Hd) as [_ [Hm [Hp _]]].
  cbn [PyFloat.parse_sign]. rewrite Hm, Hp.
  rewrite (@drop_underscores_id _ "000"%char eq_refl Hdec), Hds.
  apply Nat.leb_le in Hlen. unfold Nat.ltb.
  destruct (S int_max_str_digits <=? List.length (d :: ds)) eqn:E;
    [|reflexivity].
  apply Nat.leb_le in E. apply Nat.leb_le in Hlen. lia.
Qed.

(** ** strip *)

Lemma lstrip_head p s :
  forall c t, lstrip_by p s = c :: t -> p c = false.
Proof.
  induction s as [|x s IH]; intros c t; simpl; [discriminate|].
  destruct (p x) eqn:E; [apply IH|].
  intros H. inversion H; subst. exact E.
Qed.

Lemma lstrip_incl p s c : In c (lstrip_by p s) -> In c s.
Proof.
  induction s as [|x s IH]; simpl; [auto|].
  destruct (p x); [right; now apply IH|auto].
Qed.

Lemma lstrip_snoc p s c :
  p c = false -> lstrip_by p (s ++ [c]) = lstrip_by p s ++ [c].
Proof.
  intros Hc. induction s as [|x s IH]; simpl; [now rewrite Hc|].
  destruct (p x); [exact IH|reflexivity].
Qed.

Lemma rstrip_cons p c t :
  p c = false -> rstrip_by p (c :: t) = c :: rstrip_by p t.
Proof.
  intros Hc. unfold rstrip_by. simpl rev.
  rewrite (@lstrip_snoc _ _ _ Hc), rev_app_distr. reflexivity.
Qed.

Lemma rstrip_last p s :
  forall t c, rstrip_by p s = t ++ [c] -> p c = false.
Proof.
  intros t c H. unfold rstrip_by in H.
  apply (f_equal (@rev _)) in H. rewrite rev_involutive, rev_app_distr in H.
  simpl in H. now apply lstrip_head in H.
Qed.

Lemma rstrip_incl p s c : In c (rstrip_by p s) -> In c s.
Proof.
  unfold rstrip_by. intros H. apply in_rev in H. apply lstrip_incl in H.
  now apply in_rev.
Qed.

Lemma strip_trimmed s : trimmed (strip s).
Proof.
  unfold strip. split.
  - intros c t H.
    destruct (lstrip_by Char.isspace s) as [|x l] eqn:E; [discriminate|].
    pose proof (@lstrip_head _ _ _ _ E) as Hx.
    rewrite (@rstrip_cons _ _ _ Hx) in H. inversion H; subst. exact Hx.
  - intros t c H. now apply rstrip_last in H.
Qed.

Lemma strip_incl s c : In c (strip s) -> In c s.
Proof. intros H. now apply rstrip_incl, lstrip_incl in H. Qed.

(** ** The patient of a matching line *)

Lemma patient_of_match_cases line m now :
  Re.search false name_pattern line = Some m ->
  exists w,
    w <> [] /\ ~ In "("%char w /\
    (patient_of_match m now
     = Ok {| name := py "Dr. " ++ strip w; age := None; gender := None;
             date := strftime_date now |}
     \/ exists ds g,
          ds <> [] /\ forallb Char.isdigit ds = true
          /\ List.length ds <= List.length line
          /\ (g = py "M" \/ g = py "F")
          /\ patient_of_match m now
             = exc_bind (py_int ds)
                 (fun n => Ok {| name := py "Dr. " ++ strip w;
                                 age := Some n; gender := Some g;
                                 date := strftime_date now |})).
Proof.
  intros Hs. destruct (@name_pattern_groups line m Hs)
    as [w [Hne [Hp [->|[ds [g [-> [Hds [Hdig [Hlen Hg]]]]]]]]]];
    exists w; repeat split; auto.
  right. exists ds, g. repeat split; auto.
  unfold patient_of_match. cbn [Re.group Re.lookup Nat.eqb].
  destruct ds as [|d ds]; [now elim Hds|]. cbn [if_truthy].
  destruct (py_int (d :: ds)) as [n|e]; cbn [exc_bind]; [|reflexivity].
  destruct Hg as [-> | ->]; reflexivity.
Qed.

Lemma patient_from_lines_cases lines now :
  patient_from_lines lines now = Ok (unknown_patient now)
  \/ exists line m,
       In line lines /\ Re.search false name_pattern line = Some m
       /\ patient_from_lines lines now = patient_of_match m now.
Proof.
  induction lines as [|l lines IH]; [now left|].
  cbn [patient_from_lines].
  assert (Hrest : patient_from_lines lines now = Ok (unknown_patient now)
                  \/ exists line m,
                       In line (l :: lines)
                       /\ Re.search false name_pattern line = Some m
                       /\ patient_from_lines lines now = patient_of_match m now).
  { destruct IH as [IH|[line [m [Hin H]]]]; [now left|].
    right. exists line, m. split; [now right|exact H]. }
  destruct (contains (py "NAME") l); [|exact Hrest].
  destruct (Re.search false name_pattern l) as [m|] eqn:E; [|exact Hrest].
  right. exists l, m. repeat split; auto. now left.
Qed.

Lemma patient_info_cases :
  forall (text : str) (now : datetime) (p : patient_info),
    extract_patient_info text now = Ok p ->
    date p = strftime_date now /\
    ((name p = py "Unknown" /\ age p = None /\ gender p = None)
     \/ exists n,
          name p = py "Dr. " ++ n /\ trimmed n /\ ~ In "("%char n /\
          ((age p = None /\ gender p = None)
           \/ exists a g,
                age p = Some a /\ (0 <= a)%Z /\ gender p = Some g
                /\ (g = py "M" \/ g = py "F"))).
Proof.
  intros text now p H. unfold extract_patient_info in H.
  destruct (patient_from_lines_cases (split_on "010" text) now)
    as [E|[line [m [_ [Hs E]]]]]; rewrite E in H.
  - inversion H; subst. split; [reflexivity|]. left. repeat split.
  - destruct (@patient_of_match_cases line m now Hs)
      as [w [Hne [Hp [E'|[ds [g [Hds [Hdig [Hlen [Hg E']]]]]]]]]];
      rewrite E' in H.
    + inversion H; subst. split; [reflexivity|]. right.
      exists (strip w). repeat split; try apply strip_trimmed.
      * intros Hin. apply Hp. now apply strip_incl.
      * now left.
    + destruct (py_int ds) as [a|e] eqn:Ei; [|discriminate].
      inversion H; subst. split; [reflexivity|]. right.
      exists (strip w). repeat split; try apply strip_trimmed.
      * intros Hin. apply Hp. now apply strip_incl.
      * right. exists a, g. repeat split; auto.
        unfold py_int in Ei.
        pose proof (@digits_are_dec _ Hdig) as Hdec.
        rewrite (@to_ascii_id _ Hdec), (@strip_id _ Hdec) in Ei.
        destruct ds as [|d ds]; [now elim Hds|].
        assert (Hd : Char.isdigit d = true)
          by (simpl in Hdig; now apply andb_prop in Hdig).
        destruct (@digit_facts _ Hd) as [_ [Hm [Hpl _]]].
        cbn [PyFloat.parse_sign] in Ei. rewrite Hm, Hpl in Ei.
        rewrite (@drop_underscores_id _ "000"%char eq_refl Hdec), Hdig in Ei.
        destruct (int_max_str_digits <? List.length (d :: ds));
          [discriminate|].
        inversion Ei. apply digits_val_nonneg.
Qed.


(** X4. Whatever patient [extract_patient_info] returns is dated by the
    clock and is either "Unknown" without age and gender, or has a name
    "Dr. " followed by a text without whitespace at either end and without
    an opening parenthesis; age and gender are both there or both absent,
    the age is not negative and the gender is "M" or "F". *)
Theorem patient_info_shape :
  forall (text : str) (now : datetime) (p : patient_info),
    extract_patient_info text now = Ok p ->
    date p = strftime_date now /\
    ((name p = py "Unknown" /\ age p = None /\ gender p = None)
     \/ exists n,
          name p = py "Dr. " ++ n /\ trimmed n /\ ~ In "("%char n /\
          ((age p = None /\ gender p = None)
           \/ exists a g,
                age p = Some a /\ (0 <= a)%Z /\ gender p = Some g
                /\ (g = py "M" \/ g = py "F"))).
Proof. exact patient_info_cases. Qed.

Lemma patient_info_shape_witness :
  date {| name := py "Dr. Bob"; age := Some 45%Z; gender := Some (py "M");
          date := py "2024-03-07" |} = strftime_date sample_clock /\
  ((py "Dr. Bob" = py "Unknown" /\ Some 45%Z = None /\ Some (py "M") = None)
   \/ exists n,
        py "Dr. Bob" = py "Dr. " ++ n /\ trimmed n /\ ~ In "("%char n /\
        ((Some 45%Z = None /\ Some (py "M") = None)
         \/ exists a g,
              Some 45%Z = Some a /\ (0 <= a)%Z /\ Some (py "M") = Some g
              /\ (g = py "M" \/ g = py "F"))).
Proof.
  apply (@patient_info_shape (py "PATIENT NAME : Bob (45Y/M)") sample_clock
           {| name := py "Dr. Bob"; age := Some 45%Z; gender := Some (py "M");
              date := py "2024-03-07" |}).
  vm_compute. reflexivity.
Defined.

(** X5. When no line of the document has more characters than [int]
    accepts digits, nothing raises while the record is built: the patient,
    the mapping of the values found and the report information are put
    together, and [process_pdf_to_json] answers what saving that record
    under the patient's name answers. *)
Theorem record_built_for_short_lines :
  forall (pdf_path : str) (pages : list (option str)) (now1 now2 : datetime)
         (save : json_data -> str -> datetime -> bool),
    (forall line, In line (split_on "010" (full_text_of pages)) ->
                  List.length line <= int_max_str_digits) ->
    exists p,
      extract_patient_info (full_text_of pages) now1 = Ok p /\
      build_json pdf_path pages now1 now2
      = Ok {| patient := p;
              biomarkers_data :=
                present (extract_all (full_text_of pages)) get_reference_ranges;
              report := {| pdf_filename := basename pdf_path;
                           processed_date := strftime_stamp now2 |} |} /\
      process_pdf_to_json pdf_path (Ok pages) now1 now2 save
      = save {| patient := p;
                biomarkers_data :=
                  present (extract_all (full_text_of pages))
                          get_reference_ranges;
                report := {| pdf_filename := basename pdf_path;
                             processed_date := strftime_stamp now2 |} |}
             (name p) now2.
Proof.
  intros pdf_path pages now1 now2 save Hshort.
  assert (Hp : exists p, extract_patient_info (full_text_of pages) now1 = Ok p).
  { unfold extract_patient_info.
    destruct (patient_from_lines_cases (split_on "010" (full_text_of pages)) now1)
      as [E|[line [m [Hin [Hs E]]]]]; rewrite E; [eauto|].
    destruct (@patient_of_match_cases line m now1 Hs)
      as [w [Hne [Hpar [E'|[ds [g [Hds [Hdig [Hlen [Hg E']]]]]]]]]];
      rewrite E'; [eauto|].
    rewrite py_int_digits; auto; [cbn [exc_bind]; eauto|].
    specialize (Hshort line Hin). lia. }
  destruct Hp as [p Hp]. exists p. split; [exact Hp|].
  assert (Hb : build_json pdf_path pages now1 now2
               = Ok {| patient := p;
                       biomarkers_data :=
                         present (extract_all (full_text_of pages))
                                 get_reference_ranges;
                       report := {| pdf_filename := basename pdf_path;
                                    processed_date := strftime_stamp now2 |} |}).
  { unfold build_json, json_of_text. rewrite Hp. cbn [exc_bind].
    unfold extract_all. rewrite biomarkers_data_of_scan. reflexivity. }
  split; [exact Hb|].
  unfold process_pdf_to_json. cbn [exc_bind]. rewrite Hb. reflexivity.
Qed.

Lemma record_built_for_short_lines_witness :
  exists p,
    extract_patient_info (full_text_of [Some (py "NAME: Bob (45Y/M)")])
      sample_clock = Ok p /\
    build_json (py "a/b.pdf") [Some (py "NAME: Bob (45Y/M)")]
      sample_clock sample_clock
    = Ok {| patient := p;
            biomarkers_data :=
              present (extract_all (full_text_of [Some (py "NAME: Bob (45Y/M)")]))
                      get_reference_ranges;
            report := {| pdf_filename := basename (py "a/b.pdf");
                         processed_date := strftime_stamp sample_clock |} |} /\
    process_pdf_to_json (py "a/b.pdf") (Ok [Some (py "NAME: Bob (45Y/M)")])
      sample_clock sample_clock (fun _ _ _ => true)
    = (fun _ _ _ => true)
        {| patient := p;
           biomarkers_data :=
             present (extract_all (full_text_of [Some (py "NAME: Bob (45Y/M)")]))
                     get_reference_ranges;
           report := {| pdf_filename := basename (py "a/b.pdf");
                        processed_date := strftime_stamp sample_clock |} |}
        (name p) sample_clock.
Proof.
  apply (@record_built_for_short_lines (py "a/b.pdf")
           [Some (py "NAME: Bob (45Y/M)")] sample_clock sample_clock
           (fun _ _ _ => true)).
  intros line Hin. vm_compute in Hin.
  destruct Hin as [<-|[<-|[]]]; unfold int_max_str_digits; simpl; lia.
Defined.



(** ** What an attempt is *)

(** The attempt at a line does not depend on which alias is in the line,
    nor on how many are: with an alias in the line it is what the policy
    of the biomarker yields, without one it is nothing. *)
Lemma for_aliases_value lines idx line b als :
  fst (for_aliases lines idx line b als)
  = if existsb (fun a => alias_in a line) als
    then if str_eqb b (py "HbA1c")
         then fst (for_offsets lines idx b [1; 2])
         else extract_value_result line b
    else None.
Proof.
  induction als as [|p als IH]; [reflexivity|].
  cbn [for_aliases existsb]. destruct (alias_in p line) eqn:Ep;
    [|exact IH]. cbn [orb].
  destruct (str_eqb b (py "HbA1c")).
  - destruct (for_offsets lines idx b [1; 2]) as [[v|] parsed] eqn:Eo;
      [reflexivity|].
    destruct (for_aliases lines idx line b als) as [r evs]. simpl in *.
    rewrite IH. now destruct (existsb _ als).
  - destruct (extract_value_result line b) as [v|] eqn:Ev; [reflexivity|].
    destruct (for_aliases lines idx line b als) as [r evs]. simpl in *.
    rewrite IH. now destruct (existsb _ als).
Qed.

Lemma for_offsets_some lines idx b offsets v :
  fst (for_offsets lines idx b offsets) = Some v ->
  exists o, In o offsets /\ idx + o < List.length lines
            /\ extract_value_result (nth (idx + o) lines []) b = Some v.
Proof.
  induction offsets as [|o offsets IH]; [discriminate|].
  cbn [for_offsets]. destruct (idx + o <? List.length lines) eqn:E.
  - apply Nat.ltb_lt in E.
    destruct (extract_value_result (nth (idx + o) lines []) b) as [u|] eqn:Eu.
    + intros H. inversion H; subst. exists o. repeat split; auto. now left.
    + destruct (for_offsets lines idx b offsets) as [r parsed]. simpl in *.
      intros H. destruct (IH H) as [o' [Hin H']]. exists o'.
      split; [now right|exact H'].
  - intros H. destruct (IH H) as [o' [Hin H']]. exists o'.
    split; [now right|exact H'].
Qed.

Lemma scan_dict_get lines b v :
  found_value b (fst (scan lines)) = Some v ->
  exists i, dict_get b biomarkers = Some i.
Proof.
  unfold found_value. intros H.
  destruct (dict_get b biomarkers) as [i|] eqn:E; [eauto|].
  apply dict_get_none in E.
  assert (Hk : keys (fst (scan lines)) = keys biomarkers)
    by apply scan_from_keys.
  rewrite <- Hk in E. apply dict_get_none in E. rewrite E in H. discriminate.
Qed.

(** Where a value that the scan found comes from. *)
Lemma found_value_from lines b v :
  found_value b (fst (scan lines)) = Some v ->
  exists i idx a,
    dict_get b biomarkers = Some i /\ In a (patterns_of i) /\
    idx < List.length lines /\
    alias_in a (nth idx lines []) = true /\
    (forall j, j < idx -> attempt lines j b (patterns_of i) = None) /\
    (b = py "HbA1c" ->
       exists o, (o = 1 \/ o = 2) /\ idx + o < List.length lines
                 /\ extract_value_result (nth (idx + o) lines []) b = Some v) /\
    (b <> py "HbA1c" ->
       extract_value_result (nth idx lines []) b = Some v).
Proof.
  intros H. destruct (@scan_dict_get lines b v H) as [i Hi].
  rewrite (@scan_found lines b i Hi) in H.
  destruct (@first_attempt_some lines b (patterns_of i) lines 0 v H)
    as [k [Hk [Hv Hb]]].
  change (0 + k) with k in Hv. rewrite for_aliases_value in Hv.
  destruct (existsb (fun a => alias_in a (nth k lines [])) (patterns_of i))
    eqn:Ex; [|discriminate].
  apply existsb_exists in Ex. destruct Ex as [a [Ha Hin]].
  exists i, k, a.
  split; [exact Hi|]. split; [exact Ha|]. split; [exact Hk|].
  split; [exact Hin|]. split; [|split].
  - intros j Hj. exact (Hb j Hj).
  - intros ->. rewrite str_eqb_refl in Hv.
    destruct (@for_offsets_some lines k (py "HbA1c") [1; 2] v Hv)
      as [o [[<-|[<-|[]]] Ho]]; [exists 1|exists 2]; auto.
  - intros Hne. apply str_eqb_neq in Hne. now rewrite Hne in Hv.
Qed.

(** ** The lines an attempt reads *)

Lemma for_offsets_value lines idx b offsets :
  fst (for_offsets lines idx b offsets)
  = first_yield lines b (lines_at lines idx offsets).
Proof.
  unfold lines_at. induction offsets as [|o offsets IH]; [reflexivity|].
  cbn [for_offsets map filter].
  destruct (idx + o <? List.length lines) eqn:E; [|exact IH].
  cbn [first_yield].
  destruct (extract_value_result (nth (idx + o) lines []) b); [reflexivity|].
  destruct (for_offsets lines idx b offsets). exact IH.
Qed.

Lemma first_yield_ext (lines lines' : list str) b js :
  (forall j, In j js -> nth j lines' [] = nth j lines []) ->
  first_yield lines' b js = first_yield lines b js.
Proof.
  induction js as [|j js IH]; intros H; [reflexivity|].
  cbn [first_yield]. rewrite (H j) by now left.
  destruct (extract_value_result (nth j lines []) b); [reflexivity|].
  apply IH. intros k Hk. apply H. now right.
Qed.

Lemma attempt_value lines idx b als :
  attempt lines idx b als
  = if existsb (fun a => alias_in a (nth idx lines [])) als
    then if str_eqb b (py "HbA1c")
         then first_yield lines b (lines_at lines idx [1; 2])
         else extract_value_result (nth idx lines []) b
    else None.
Proof.
  unfold attempt. rewrite for_aliases_value. now rewrite for_offsets_value.
Qed.

(** C4. The lookahead of the scan, on what it computes and on the calls
    it makes.  (1) The attempt for HbA1c at a line with an alias is the
    number of the first of the lines one and two below it (those that
    exist, in this order) on which [extract_value] yields one; the
    attempt for any other biomarker is [extract_value] of the line the
    alias is in; without an alias in the line there is no attempt.
    (2) Hence the attempt for HbA1c is the same on any text of the same
    length with the same two lines below, whatever the alias line holds
    besides an alias, and (3) the attempt for another biomarker is the
    same on any text with the same line at that place.  (4) A value the
    scan ends with is the [extract_value] of such a line.  (5) Every call
    of [extract_value] the scan makes belongs to an alias found in a
    line; for HbA1c the lines parsed are those one and two below, in
    order, up to and including the first that yields a number, never the
    line itself; for the others the line itself and no other. *)
Theorem lookahead_discipline :
  forall lines : list str,
    (forall idx b als,
        attempt lines idx b als
        = if existsb (fun a => alias_in a (nth idx lines [])) als
          then if str_eqb b (py "HbA1c")
               then first_yield lines b (lines_at lines idx [1; 2])
               else extract_value_result (nth idx lines []) b
          else None) /\
    (forall (lines' : list str) (idx : nat) (als : list str),
        List.length lines' = List.length lines ->
        nth (idx + 1) lines' [] = nth (idx + 1) lines [] ->
        nth (idx + 2) lines' [] = nth (idx + 2) lines [] ->
        existsb (fun a => alias_in a (nth idx lines' [])) als
        = existsb (fun a => alias_in a (nth idx lines [])) als ->
        attempt lines' idx (py "HbA1c") als
        = attempt lines idx (py "HbA1c") als) /\
    (forall (lines' : list str) (idx : nat) (b : str) (als : list str),
        b <> py "HbA1c" ->
        nth idx lines' [] = nth idx lines [] ->
        attempt lines' idx b als = attempt lines idx b als) /\
    (forall b v,
        found_value b (fst (scan lines)) = Some v ->
        exists i idx a,
          dict_get b biomarkers = Some i /\ In a (patterns_of i) /\
          idx < List.length lines /\
          alias_in a (nth idx lines []) = true /\
          attempt lines idx b (patterns_of i) = Some v /\
          (forall j, j < idx -> attempt lines j b (patterns_of i) = None)) /\
    (forall e,
        In e (snd (scan lines)) ->
        exists i,
          In (ev_biomarker e, i) biomarkers /\
          In (ev_alias e) (patterns_of i) /\
          ev_line e < List.length lines /\
          alias_in (ev_alias e) (nth (ev_line e) lines []) = true /\
          (ev_biomarker e = py "HbA1c" ->
             ev_parsed e
             = upto_first_hit (yields lines (py "HbA1c"))
                 (lines_at lines (ev_line e) [1; 2])
             /\ ~ In (ev_line e) (ev_parsed e)
             /\ forall j, In j (ev_parsed e) ->
                  j < List.length lines
                  /\ (j = ev_line e + 1 \/ j = ev_line e + 2)) /\
          (ev_biomarker e <> py "HbA1c" -> ev_parsed e = [ev_line e])).
Proof.
  intros lines. split; [|split; [|split; [|split]]].
  - intros idx b als. apply attempt_value.
  - intros lines' idx als Hlen H1 H2 Hex.
    rewrite !attempt_value, Hex, str_eqb_refl.
    destruct (existsb (fun a => alias_in a (nth idx lines [])) als);
      [|reflexivity].
    unfold lines_at. rewrite Hlen. apply first_yield_ext.
    intros j Hj. apply filter_In in Hj. destruct Hj as [Hj _].
    cbn [map] in Hj. destruct Hj as [<-|[<-|[]]]; assumption.
  - intros lines' idx b als Hb Hn. apply str_eqb_neq in Hb.
    rewrite !attempt_value, Hb, Hn. reflexivity.
  - intros b v H. destruct (@scan_dict_get lines b v H) as [i Hi].
    rewrite (@scan_found lines b i Hi) in H.
    destruct (@first_attempt_some lines b (patterns_of i) lines 0 v H)
      as [k [Hk [Hkv Hkb]]].
    change (0 + k) with k in Hkv.
    assert (Hat : attempt lines k b (patterns_of i) = Some v) by exact Hkv.
    pose proof Hat as Hex. rewrite attempt_value in Hex.
    destruct (existsb (fun a => alias_in a (nth k lines [])) (patterns_of i))
      eqn:Ex; [|discriminate].
    apply existsb_exists in Ex. destruct Ex as [a [Ha Hin]].
    exists i, k, a.
    split; [exact Hi|]. split; [exact Ha|]. split; [exact Hk|].
    split; [exact Hin|]. split; [exact Hat|].
    intros j Hj. exact (Hkb j Hj).
  - intros e He.
    destruct (@scan_from_events lines lines 0 biomarkers e eq_refl He)
      as [als [[i [Hi Hp]] [H1 [H2 [H3 H4]]]]].
    exists i. subst als.
    split; [exact Hi|]. split; [exact H2|]. split; [exact H1|].
    split; [exact H3|]. split.
    + intros Hb. rewrite Hb, str_eqb_refl in H4. rewrite H4.
      split; [reflexivity|]. split.
      * intros Hin. apply upto_first_hit_incl, lines_at_after in Hin.
        destruct Hin as [_ [o [[<-|[<-|[]]] Ho]]]; lia.
      * intros j Hj. apply upto_first_hit_incl, lines_at_after in Hj.
        destruct Hj as [Hlt [o [[<-|[<-|[]]] Ho]]]; auto.
    + intros Hne. apply str_eqb_neq in Hne. now rewrite H4, Hne.
Qed.

Lemma lookahead_discipline_witness :
  attempt [py "HbA1c 9.9 %"; py "Method"; py "6.1 %"] 0 (py "HbA1c")
    [py "HbA1c"; py "HbA1c - (HPLC)"; py "GLYCATED HEMOGLOBIN"]
  = attempt [py "HbA1c (HPLC)"; py "Method"; py "6.1 %"] 0 (py "HbA1c")
      [py "HbA1c"; py "HbA1c - (HPLC)"; py "GLYCATED HEMOGLOBIN"]
  /\ attempt [py "Method"; py "LDL-C 100"; py "HDL-C 50"] 1 (py "LDL")
       [py "LDL CHOLESTEROL"; py "LDL-C"]
     = attempt [py "HbA1c"; py "LDL-C 100"] 1 (py "LDL")
         [py "LDL CHOLESTEROL"; py "LDL-C"]
  /\ exists i,
       In (py "HbA1c", i) biomarkers /\
       In (py "HbA1c") (patterns_of i) /\
       0 < 3 /\
       alias_in (py "HbA1c") (py "HbA1c (HPLC)") = true /\
       (py "HbA1c" = py "HbA1c" ->
          [1; 2] = upto_first_hit
                     (yields [py "HbA1c (HPLC)"; py "Method"; py "6.1 %"]
                             (py "HbA1c"))
                     (lines_at [py "HbA1c (HPLC)"; py "Method"; py "6.1 %"]
                               0 [1; 2])
          /\ ~ In 0 [1; 2]
          /\ forall j, In j [1; 2] -> j < 3 /\ (j = 0 + 1 \/ j = 0 + 2)) /\
       (py "HbA1c" <> py "HbA1c" -> [1; 2] = [0]).
Proof.
  split; [|split].
  - apply (proj1 (proj2 (lookahead_discipline
                           [py "HbA1c (HPLC)"; py "Method"; py "6.1 %"]))
             [py "HbA1c 9.9 %"; py "Method"; py "6.1 %"] 0
             [py "HbA1c"; py "HbA1c - (HPLC)"; py "GLYCATED HEMOGLOBIN"]);
      vm_compute; reflexivity.
  - apply (proj1 (proj2 (proj2 (lookahead_discipline
                                  [py "HbA1c"; py "LDL-C 100"])))
             [py "Method"; py "LDL-C 100"; py "HDL-C 50"] 1 (py "LDL")
             [py "LDL CHOLESTEROL"; py "LDL-C"]).
    + discriminate.
    + reflexivity.
  - apply (proj2 (proj2 (proj2 (proj2 (lookahead_discipline
                    [py "HbA1c (HPLC)"; py "Method"; py "6.1 %"]))))
             {| ev_line := 0; ev_biomarker := py "HbA1c";
                ev_alias := py "HbA1c"; ev_parsed := [1; 2] |}).
    vm_compute. left. reflexivity.
Defined.

(** A number on the line of the HbA1c label is not the value: the value
    is the 6.1 two lines below. *)
Example lookahead_skips_label_line :
  found_value (py "HbA1c")
    (fst (scan [py "HbA1c 9.9 %"; py "Method"; py "6.1 %"]))
  = Some (S754_finite false 6867989431740006 (-50))
  /\ extract_value_result (py "HbA1c 9.9 %") (py "HbA1c")
     = Some (S754_finite false 5573204538870989 (-49)).
Proof. vm_compute. split; reflexivity. Qed.

(** X6. A value in the result of the scan has a source in the text: an
    alias of the biomarker occurs, in any case, in some line, no earlier
    line's attempt succeeded, and the value is what [extract_value] yields
    on that line or, for HbA1c, on the first or second line below it,
    which exists. *)
Theorem found_value_source :
  forall (lines : list str) (b : str) (v : float),
    found_value b (fst (scan lines)) = Some v ->
    exists i idx a,
      dict_get b biomarkers = Some i /\ In a (patterns_of i) /\
      idx < List.length lines /\
      alias_in a (nth idx lines []) = true /\
      (forall j, j < idx -> attempt lines j b (patterns_of i) = None) /\
      (b = py "HbA1c" ->
         exists o, (o = 1 \/ o = 2) /\ idx + o < List.length lines
                   /\ extract_value_result (nth (idx + o) lines []) b = Some v) /\
      (b <> py "HbA1c" ->
         extract_value_result (nth idx lines []) b = Some v).
Proof. exact found_value_from. Qed.

Lemma found_value_source_witness :
  exists i idx a,
    dict_get (py "HbA1c") biomarkers = Some i /\ In a (patterns_of i) /\
    idx < List.length [py "HbA1c (HPLC)"; py "Method"; py "6.1 %"] /\
    alias_in a (nth idx [py "HbA1c (HPLC)"; py "Method"; py "6.1 %"] []) = true /\
    (forall j, j < idx ->
       attempt [py "HbA1c (HPLC)"; py "Method"; py "6.1 %"] j (py "HbA1c")
         (patterns_of i) = None) /\
    (py "HbA1c" = py "HbA1c" ->
       exists o, (o = 1 \/ o = 2)
                 /\ idx + o < List.length [py "HbA1c (HPLC)"; py "Method"; py "6.1 %"]
                 /\ extract_value_result
                      (nth (idx + o) [py "HbA1c (HPLC)"; py "Method"; py "6.1 %"] [])
                      (py "HbA1c")
                    = Some (S754_finite false 6867989431740006 (-50))) /\
    (py "HbA1c" <> py "HbA1c" ->
       extract_value_result
         (nth idx [py "HbA1c (HPLC)"; py "Method"; py "6.1 %"] []) (py "HbA1c")
       = Some (S754_finite false 6867989431740006 (-50))).
Proof.
  apply (@found_value_source [py "HbA1c (HPLC)"; py "Method"; py "6.1 %"]
           (py "HbA1c") (S754_finite false 6867989431740006 (-50))).
  vm_compute. reflexivity.
Defined.

(** X7. A biomarker none of whose aliases occurs in any line has no value
    after the scan, has no entry in the mapping of the record, and
    [extract_value] is never called for it. *)
Theorem unmentioned_biomarker_absent :
  forall (lines : list str) (b : str),
    (forall i a line,
        dict_get b biomarkers = Some i -> In a (patterns_of i) ->
        In line lines -> alias_in a line = false) ->
    found_value b (fst (scan lines)) = None
    /\ ~ In b (keys (present (fst (scan lines)) get_reference_ranges))
    /\ forall e, In e (snd (scan lines)) -> ev_biomarker e <> b.
Proof.
  intros lines b Hno.
  assert (Hnone : found_value b (fst (scan lines)) = None).
  { destruct (found_value b (fst (scan lines))) as [v|] eqn:E; [|reflexivity].
    destruct (@found_value_from lines b v E)
      as [i [idx [a [Hi [Ha [Hlt [Hal _]]]]]]].
    rewrite (Hno i a (nth idx lines []) Hi Ha) in Hal; [discriminate|].
    now apply nth_In. }
  assert (Hk : keys (fst (scan lines)) = keys biomarkers)
    by apply scan_from_keys.
  assert (Hnd : NoDup (keys (fst (scan lines))))
    by (rewrite Hk; apply biomarkers_keys_nodup).
  split; [exact Hnone|]. split.
  - intros Hin. unfold keys in Hin. apply in_map_iff in Hin.
    destruct Hin as [[k e] [E Hin]]. simpl in E. subst k.
    apply present_in in Hin. destruct Hin as [i [v [r [Hin [Hv _]]]]].
    assert (found_value b (fst (scan lines)) = Some v) as E
        by (apply (@found_value_in _ b v Hnd); eauto).
    congruence.
  - intros e He Hb.
    destruct (@scan_from_events lines lines 0 biomarkers e eq_refl He)
      as [als [[i [Hi Hp]] [H1 [H2 [H3 _]]]]].
    rewrite Hb in Hi. subst als.
    rewrite (Hno i (ev_alias e) (nth (ev_line e) lines [])) in H3;
      [discriminate| |exact H2|now apply nth_In].
    apply in_dict_get; [apply biomarkers_keys_nodup|exact Hi].
Qed.

Lemma unmentioned_biomarker_absent_witness :
  found_value (py "HDL") (fst (scan [py "LDL-C 100 mg/dL"])) = None
  /\ ~ In (py "HDL")
         (keys (present (fst (scan [py "LDL-C 100 mg/dL"])) get_reference_ranges))
  /\ forall e, In e (snd (scan [py "LDL-C 100 mg/dL"])) ->
               ev_biomarker e <> py "HDL".
Proof.
  apply (@unmentioned_biomarker_absent [py "LDL-C 100 mg/dL"] (py "HDL")).
  intros i a line Hi Ha [<-|[]].
  vm_compute in Hi. inversion Hi; subst.
  destruct Ha as [<-|[<-|[]]]; vm_compute; reflexivity.
Defined.

(** X11. The attempt at a line depends on the set of aliases of the
    biomarker only, not on their order or number: with any alias in the
    line it is the one result of the biomarker's policy. *)
Theorem alias_order_irrelevant :
  forall (lines : list str) (idx : nat) (line b : str) (als als' : list str),
    (forall a, In a als <-> In a als') ->
    fst (for_aliases lines idx line b als)
    = fst (for_aliases lines idx line b als').
Proof.
  intros lines idx line b als als' H. rewrite !for_aliases_value.
  assert (E : existsb (fun a => alias_in a line) als
              = existsb (fun a => alias_in a line) als').
  { apply eq_true_iff_eq. rewrite !existsb_exists.
    split; intros [a [Ha Hin]]; exists a; split; auto; now apply H. }
  now rewrite E.
Qed.

Lemma alias_order_irrelevant_witness :
  fst (for_aliases [py "LDL-C 100"] 0 (py "LDL-C 100") (py "LDL")
         [py "LDL CHOLESTEROL"; py "LDL-C"])
  = fst (for_aliases [py "LDL-C 100"] 0 (py "LDL-C 100") (py "LDL")
           [py "LDL-C"; py "LDL CHOLESTEROL"]).
Proof.
  apply (@alias_order_irrelevant [py "LDL-C 100"] 0 (py "LDL-C 100") (py "LDL")
           [py "LDL CHOLESTEROL"; py "LDL-C"]
           [py "LDL-C"; py "LDL CHOLESTEROL"]).
  intros a. simpl. tauto.
Defined.

(** X12. Outside HbA1c the biomarker name plays no part in
    [extract_value]: two names that do not contain "hba1c" get the same
    result, and the same output, on every line, so that a line that names
    two biomarkers gives both the same number. *)
Theorem generic_policy_ignores_name :
  forall line n1 n2 : str,
    is_hba1c n1 = false -> is_hba1c n2 = false ->
    extract_value line n1 = extract_value line n2.
Proof.
  intros line n1 n2 H1 H2. rewrite !extract_value_silent. f_equal. f_equal.
  unfold extract_value_result. rewrite !extract_value_eq.
  rewrite (@extract_value_try_generic line n1 H1).
  rewrite (@extract_value_try_generic line n2 H2).
  destruct (for_words_ok (rev (split_ws (clean line)))) as [r ->].
  reflexivity.
Qed.

Lemma generic_policy_ignores_name_witness :
  extract_value (py "HDL-C 50 LDL-C 100") (py "HDL")
  = extract_value (py "HDL-C 50 LDL-C 100") (py "LDL").
Proof.
  apply (@generic_policy_ignores_name (py "HDL-C 50 LDL-C 100")
           (py "HDL") (py "LDL")); reflexivity.
Defined.

(** ** Text added after the lines *)

Lemma for_offsets_extend (lines more : list str) idx b :
  idx + 2 < List.length lines ->
  for_offsets (lines ++ more) idx b [1; 2] = for_offsets lines idx b [1; 2].
Proof.
  intros H. cbn [for_offsets]. rewrite length_app.
  assert (E1 : (idx + 1 <? List.length lines) = true) by (apply Nat.ltb_lt; lia).
  assert (E2 : (idx + 2 <? List.length lines) = true) by (apply Nat.ltb_lt; lia).
  assert (E1' : (idx + 1 <? List.length lines + List.length more) = true)
    by (apply Nat.ltb_lt; lia).
  assert (E2' : (idx + 2 <? List.length lines + List.length more) = true)
    by (apply Nat.ltb_lt; lia).
  rewrite E1, E2, E1', E2'. rewrite !app_nth1 by lia. reflexivity.
Qed.

Lemma for_offsets_extend_some (lines more : list str) idx b v :
  fst (for_offsets lines idx b [1; 2]) = Some v ->
  fst (for_offsets (lines ++ more) idx b [1; 2]) = Some v.
Proof.
  cbn [for_offsets]. rewrite length_app.
  destruct (idx + 1 <? List.length lines) eqn:E1.
  - apply Nat.ltb_lt in E1.
    assert (E1' : (idx + 1 <? List.length lines + List.length more) = true)
      by (apply Nat.ltb_lt; lia).
    rewrite E1'. rewrite app_nth1 by exact E1.
    destruct (extract_value_result (nth (idx + 1) lines []) b); [auto|].
    destruct (idx + 2 <? List.length lines) eqn:E2; [|discriminate].
    apply Nat.ltb_lt in E2.
    assert (E2' : (idx + 2 <? List.length lines + List.length more) = true)
      by (apply Nat.ltb_lt; lia).
    rewrite E2'. rewrite app_nth1 by exact E2.
    destruct (extract_value_result (nth (idx + 2) lines []) b); auto.
  - apply Nat.ltb_ge in E1.
    assert (E2 : (idx + 2 <? List.length lines) = false)
      by (apply Nat.ltb_ge; lia).
    rewrite E2. discriminate.
Qed.

(** X8. Text added after the document does not change a value that the
    scan has found: what is found in the lines is found in the lines
    followed by any others. *)
Theorem found_value_stable_under_append :
  forall (lines more : list str) (b : str) (v : float),
    found_value b (fst (scan lines)) = Some v ->
    found_value b (fst (scan (lines ++ more))) = Some v.
Proof.
  intros lines more b v H.
  destruct (@scan_dict_get lines b v H) as [i Hi].
  rewrite (@scan_found lines b i Hi) in H.
  rewrite (@scan_found (lines ++ more) b i Hi).
  destruct (@first_attempt_some lines b (patterns_of i) lines 0 v H)
    as [k [Hk [Hv Hb]]].
  change (0 + k) with k in Hv.
  assert (Hk1 : str_eqb b (py "HbA1c") = true -> k + 1 < List.length lines).
  { intros Eb. rewrite for_aliases_value, Eb in Hv.
    destruct (existsb _ (patterns_of i)); [|discriminate].
    destruct (@for_offsets_some lines k b [1; 2] v Hv)
      as [o [[<-|[<-|[]]] [Ho _]]]; lia. }
  apply (@first_attempt_at (lines ++ more) b (patterns_of i) (lines ++ more)
           0 k v).
  - rewrite length_app. lia.
  - change (0 + k) with k. rewrite app_nth1 by exact Hk.
    rewrite for_aliases_value in Hv. rewrite for_aliases_value.
    destruct (existsb _ (patterns_of i)); [|discriminate].
    destruct (str_eqb b (py "HbA1c")); [|exact Hv].
    now apply for_offsets_extend_some.
  - intros j Hj. change (0 + j) with j.
    specialize (Hb j Hj). change (0 + j) with j in Hb.
    rewrite app_nth1 by lia.
    rewrite for_aliases_value in Hb. rewrite for_aliases_value.
    destruct (existsb _ (patterns_of i)); [|reflexivity].
    destruct (str_eqb b (py "HbA1c")) eqn:Eb; [|exact Hb].
    rewrite for_offsets_extend; [exact Hb|].
    specialize (Hk1 eq_refl). lia.
Qed.

Lemma found_value_stable_under_append_witness :
  found_value (py "HbA1c")
    (fst (scan ([py "HbA1c"; py "6.1 %"] ++ [py "HbA1c"; py "7.5 %"])))
  = Some (S754_finite false 6867989431740006 (-50)).
Proof.
  apply (@found_value_stable_under_append [py "HbA1c"; py "6.1 %"]
           [py "HbA1c"; py "7.5 %"] (py "HbA1c")
           (S754_finite false 6867989431740006 (-50))).
  vm_compute. reflexivity.
Defined.

(** X10. For a name that contains "hba1c", when a pattern of the list
    matches the cleaned line and none before it does, [extract_value]
    returns the float of group 1 of that match, a digit string with an
    optional point, which is not negative, and prints nothing. *)
Theorem hba1c_pattern_value :
  forall (line name : str) (before : list Re.regex) (p : Re.regex)
         (after : list Re.regex) (m : Re.caps),
    is_hba1c name = true ->
    patterns = before ++ p :: after ->
    (forall q, In q before -> Re.search true q (clean line) = None) ->
    Re.search true p (clean line) = Some m ->
    exists w v,
      Re.group 1 m = Some w /\ unsigned_decimal w /\
      PyFloat.of_str w = Some v /\ PyFloat.nonneg v = true /\
      extract_value line name = (Ok (Some v), []).
Proof. exact hba1c_first_pattern_decides. Qed.

Lemma hba1c_pattern_value_witness :
  exists w v,
    Re.group 1 [(1, py "6.1")] = Some w /\ unsigned_decimal w /\
    PyFloat.of_str w = Some v /\ PyFloat.nonneg v = true /\
    extract_value (py "H.P.L.C 6.1") (py "HbA1c - (HPLC)") = (Ok (Some v), []).
Proof.
  apply (@hba1c_pattern_value (py "H.P.L.C 6.1") (py "HbA1c - (HPLC)")
           [pattern_percent] pattern_hplc_before
           [pattern_hplc_after; pattern_at_end] [(1, py "6.1")]).
  - reflexivity.
  - reflexivity.
  - intros q [<-|[]]. vm_compute. reflexivity.
  - vm_compute. reflexivity.
Defined.

(** ** Lower case changes nothing that the extraction looks at *)

Lemma lower_char_idem c : Char.lower (Char.lower c) = Char.lower c.
Proof. each_char c. Qed.

Lemma lower_char_classes c :
  Char.isspace (Char.lower c) = Char.isspace c
  /\ Char.isdigit (Char.lower c) = Char.isdigit c
  /\ Char.is_c_space (Char.lower c) = Char.is_c_space c
  /\ (code (Char.lower c) <? 127) = (code c <? 127).
Proof. each_char c. Qed.

Lemma lower_char_marks c :
  chr_eqb (Char.lower c) "," = chr_eqb c ","
  /\ chr_eqb (Char.lower c) "<" = chr_eqb c "<"
  /\ chr_eqb (Char.lower c) ">" = chr_eqb c ">"
  /\ chr_eqb (Char.lower c) "_" = chr_eqb c "_"
  /\ chr_eqb (Char.lower c) "-" = chr_eqb c "-"
  /\ chr_eqb (Char.lower c) "+" = chr_eqb c "+"
  /\ chr_eqb (Char.lower c) "." = chr_eqb c "."
  /\ chr_eqb (Char.lower c) "010" = chr_eqb c "010".
Proof. each_char c. Qed.

Lemma lower_digit c : Char.isdigit c = true -> Char.lower c = c.
Proof. each_char c. Qed.

Lemma lower_idem s : lower (lower s) = lower s.
Proof.
  unfold lower. rewrite map_map. apply map_ext. apply lower_char_idem.
Qed.

Lemma filter_lower (f : ascii -> bool) s :
  (forall c, f (Char.lower c) = f c) ->
  filter f (lower s) = lower (filter f s).
Proof.
  intros Hf. unfold lower. induction s as [|c s IH]; [reflexivity|].
  cbn [map filter]. rewrite Hf. destruct (f c); cbn [map]; now rewrite IH.
Qed.

Lemma clean_lower s : clean (lower s) = lower (clean s).
Proof.
  unfold clean, remove_char.
  rewrite !filter_lower; [reflexivity| | |]; intros c;
    destruct (lower_char_marks c) as [H1 [H2 [H3 _]]]; now rewrite ?H1, ?H2, ?H3.
Qed.

Lemma split_ws_aux_lower cur s :
  split_ws_aux (lower cur) (lower s) = map lower (split_ws_aux cur s).
Proof.
  revert cur. induction s as [|c s IH]; intros cur.
  - destruct cur as [|a cur]; [reflexivity|]. cbn [lower map split_ws_aux].
    f_equal. symmetry. apply (map_rev Char.lower (a :: cur)).
  - change (lower (c :: s)) with (Char.lower c :: lower s).
    cbn [split_ws_aux].
    destruct (lower_char_classes c) as [-> _].
    destruct (Char.isspace c).
    + destruct cur as [|a cur].
      * apply (IH []).
      * cbn [lower map]. rewrite <- (IH []). f_equal.
        symmetry. apply (map_rev Char.lower (a :: cur)).
    + apply (IH (c :: cur)).
Qed.

Lemma split_ws_lower s : split_ws (lower s) = map lower (split_ws s).
Proof. apply (split_ws_aux_lower [] s). Qed.

Lemma lstrip_lower (p : ascii -> bool) s :
  (forall c, p (Char.lower c) = p c) ->
  lstrip_by p (lower s) = lower (lstrip_by p s).
Proof.
  intros Hp. induction s as [|c s IH]; [reflexivity|].
  change (lower (c :: s)) with (Char.lower c :: lower s).
  cbn [lstrip_by]. rewrite Hp. destruct (p c); [exact IH|reflexivity].
Qed.

Lemma rstrip_lower (p : ascii -> bool) s :
  (forall c, p (Char.lower c) = p c) ->
  rstrip_by p (lower s) = lower (rstrip_by p s).
Proof.
  intros Hp. unfold rstrip_by.
  replace (rev (lower s)) with (lower (rev s))
    by (unfold lower; apply map_rev).
  rewrite (lstrip_lower _ (rev s) Hp). unfold lower. now rewrite map_rev.
Qed.

Lemma to_ascii_lower s :
  PyFloat.to_ascii (lower s) = lower (PyFloat.to_ascii s).
Proof.
  induction s as [|c s IH]; [reflexivity|].
  change (lower (c :: s)) with (Char.lower c :: lower s).
  cbn [PyFloat.to_ascii].
  destruct (lower_char_classes c) as [Hs [_ [_ ->]]]. rewrite Hs.
  destruct (code c <? 127); [cbn [lower map]; now rewrite IH|].
  destruct (Char.isspace c); [cbn [lower map]; now rewrite IH|reflexivity].
Qed.

Lemma drop_underscores_lower s prev :
  PyFloat.drop_underscores (Char.lower prev) (lower s)
  = option_map lower (PyFloat.drop_underscores prev s).
Proof.
  revert prev. induction s as [|c s IH]; intros prev.
  - cbn [lower map PyFloat.drop_underscores].
    destruct (lower_char_marks prev) as [_ [_ [_ [-> _]]]].
    now destruct (chr_eqb prev "_").
  - change (lower (c :: s)) with (Char.lower c :: lower s).
    cbn [PyFloat.drop_underscores].
    destruct (lower_char_marks prev) as [_ [_ [_ [-> _]]]].
    destruct (lower_char_marks c) as [_ [_ [_ [-> _]]]].
    destruct (lower_char_classes prev) as [_ [-> _]].
    destruct (lower_char_classes c) as [_ [-> _]].
    rewrite IH.
    destruct (chr_eqb c "_"); [now destruct (Char.isdigit prev)|].
    destruct (chr_eqb prev "_" && negb (Char.isdigit c)); [reflexivity|].
    now destruct (PyFloat.drop_underscores c s).
Qed.

Lemma parse_sign_lower s :
  PyFloat.parse_sign (lower s)
  = (fst (PyFloat.parse_sign s), lower (snd (PyFloat.parse_sign s))).
Proof.
  destruct s as [|c s]; [reflexivity|].
  change (lower (c :: s)) with (Char.lower c :: lower s).
  cbn [PyFloat.parse_sign].
  destruct (lower_char_marks c) as [_ [_ [_ [_ [-> [-> _]]]]]].
  destruct (chr_eqb c "-"); [reflexivity|].
  destruct (chr_eqb c "+"); reflexivity.
Qed.

Lemma span_digits_lower s :
  PyFloat.span_digits (lower s)
  = (fst (PyFloat.span_digits s), lower (snd (PyFloat.span_digits s))).
Proof.
  induction s as [|c s IH]; [reflexivity|].
  change (lower (c :: s)) with (Char.lower c :: lower s).
  cbn [PyFloat.span_digits].
  destruct (lower_char_classes c) as [_ [-> _]].
  destruct (Char.isdigit c) eqn:Ed; [|reflexivity].
  rewrite IH, (lower_digit _ Ed).
  now destruct (PyFloat.span_digits s).
Qed.

Lemma lower_nil s : lower s = [] <-> s = [].
Proof. destruct s; split; intros H; try reflexivity; discriminate. Qed.

Lemma parse_exponent_lower s :
  PyFloat.parse_exponent (lower s)
  = (fst (PyFloat.parse_exponent s), lower (snd (PyFloat.parse_exponent s))).
Proof.
  destruct s as [|c s]; [reflexivity|].
  change (lower (c :: s)) with (Char.lower c :: lower s).
  cbn [PyFloat.parse_exponent]. rewrite lower_char_idem.
  destruct (chr_eqb (Char.lower c) "e"); [|reflexivity].
  rewrite parse_sign_lower.
  destruct (PyFloat.parse_sign s) as [eneg r]. cbn [fst snd].
  rewrite span_digits_lower.
  destruct (PyFloat.span_digits r) as [[|d ds] r']; reflexivity.
Qed.

Lemma parse_decimal_lower neg s :
  PyFloat.parse_decimal neg (lower s) = PyFloat.parse_decimal neg s.
Proof.
  unfold PyFloat.parse_decimal. rewrite span_digits_lower.
  destruct (PyFloat.span_digits s) as [ip r1]. cbn [fst snd].
  assert (E : match lower r1 with
              | [] => ([], lower r1)
              | c :: r => if chr_eqb c "." then PyFloat.span_digits r
                          else ([], lower r1)
              end
              = (fst match r1 with
                     | [] => ([], r1)
                     | c :: r => if chr_eqb c "." then PyFloat.span_digits r
                                 else ([], r1)
                     end,
                 lower (snd match r1 with
                            | [] => ([], r1)
                            | c :: r => if chr_eqb c "." then PyFloat.span_digits r
                                        else ([], r1)
                            end))).
  { destruct r1 as [|c r]; [reflexivity|].
    change (lower (c :: r)) with (Char.lower c :: lower r). cbv beta iota.
    destruct (lower_char_marks c) as [_ [_ [_ [_ [_ [_ [-> _]]]]]]].
    destruct (chr_eqb c "."); [apply span_digits_lower|reflexivity]. }
  rewrite E. clear E.
  destruct (match r1 with
            | [] => ([], r1)
            | c :: r => if chr_eqb c "." then PyFloat.span_digits r else ([], r1)
            end) as [fp r2]. cbn [fst snd].
  destruct (ip ++ fp); [reflexivity|].
  rewrite parse_exponent_lower.
  destruct (PyFloat.parse_exponent r2) as [ex r3]. cbn [fst snd].
  destruct r3; reflexivity.
Qed.

Lemma of_str_lower s : PyFloat.of_str (lower s) = PyFloat.of_str s.
Proof.
  unfold PyFloat.of_str. rewrite to_ascii_lower.
  change "000"%char with (Char.lower "000"%char) at 1.
  rewrite drop_underscores_lower.
  destruct (PyFloat.drop_underscores "000" (PyFloat.to_ascii s)) as [t|];
    [|reflexivity].
  cbn [option_map].
  rewrite lstrip_lower, rstrip_lower
    by (intros c; now destruct (lower_char_classes c) as [_ [_ [-> _]]]).
  rewrite parse_sign_lower.
  destruct (PyFloat.parse_sign _) as [neg v]. cbn [fst snd].
  rewrite parse_decimal_lower. unfold PyFloat.parse_inf_nan.
  now rewrite lower_idem.
Qed.

Lemma for_words_lower ws : for_words (map lower ws) = for_words ws.
Proof.
  induction ws as [|w ws IH]; [reflexivity|].
  cbn [map for_words]. unfold py_float. rewrite of_str_lower.
  destruct (PyFloat.of_str w); [reflexivity|exact IH].
Qed.

Lemma cls_match_lower c x :
  Re.cls_match true c (Char.lower x) = Re.cls_match true c x.
Proof.
  destruct c; cbn [Re.cls_match]; rewrite ?lower_char_idem; auto.
  - now destruct (lower_char_classes x) as [_ [-> _]].
  - now destruct (lower_char_classes x) as [-> _].
Qed.

Lemma star_lower c s g :
  Re.star true c (lower s) (lower_caps g)
  = map lower_way (Re.star true c s g).
Proof.
  induction s as [|x s IH]; [reflexivity|].
  change (lower (x :: s)) with (Char.lower x :: lower s).
  cbn [Re.star]. rewrite cls_match_lower.
  destruct (Re.cls_match true c x); [|reflexivity].
  rewrite IH, map_app. reflexivity.
Qed.

Lemma flat_map_lower_way (f f' : str * Re.caps -> list (str * Re.caps)) l :
  (forall x, f (lower_way x) = map lower_way (f' x)) ->
  flat_map f (map lower_way l) = map lower_way (flat_map f' l).
Proof.
  intros H. induction l as [|x l IH]; [reflexivity|].
  cbn [map flat_map]. now rewrite H, IH, map_app.
Qed.

Lemma lower_length s : List.length (lower s) = List.length s.
Proof. apply length_map. Qed.

Lemma exec_lower r :
  forall s g,
    Re.exec true r (lower s) (lower_caps g)
    = map lower_way (Re.exec true r s g).
Proof.
  induction r as [|c|r1 IH1 r2 IH2|c|c|r IH|n r IH|]; intros s g.
  - reflexivity.
  - destruct s as [|x s]; [reflexivity|].
    change (lower (x :: s)) with (Char.lower x :: lower s).
    cbn [Re.exec]. rewrite cls_match_lower.
    now destruct (Re.cls_match true c x).
  - cbn [Re.exec]. rewrite IH1.
    apply flat_map_lower_way. intros [s1 g1]. apply IH2.
  - apply star_lower.
  - destruct s as [|x s]; [reflexivity|].
    change (lower (x :: s)) with (Char.lower x :: lower s).
    cbn [Re.exec]. rewrite cls_match_lower.
    destruct (Re.cls_match true c x); [apply star_lower|reflexivity].
  - cbn [Re.exec]. rewrite IH, map_app. reflexivity.
  - cbn [Re.exec]. rewrite IH, !map_map. apply map_ext.
    intros [s' g']. unfold lower_way. cbn [fst snd lower_caps map].
    rewrite !lower_length. unfold lower. now rewrite firstn_map.
  - cbn [Re.exec]. destruct s as [|c [|d s]]; try reflexivity.
    change (lower [c]) with [Char.lower c]. cbv beta iota.
    destruct (lower_char_marks c) as [_ [_ [_ [_ [_ [_ [_ ->]]]]]]].
    now destruct (chr_eqb c "010").
Qed.

Lemma search_lower r s :
  Re.search true r (lower s) = option_map lower_caps (Re.search true r s).
Proof.
  induction s as [|x s IH].
  - cbn [Re.search lower map].
    pose proof (exec_lower r [] []) as E. cbn [lower map lower_caps] in E.
    destruct (Re.exec true r [] []) as [|[s' g'] l]; [reflexivity|].
    cbn [map option_map] in *. injection E as E1 E2 E3.
    unfold lower_way in E2. cbn [snd] in E2. now rewrite <- E2.
  - change (lower (x :: s)) with (Char.lower x :: lower s).
    cbn [Re.search].
    pose proof (exec_lower r (x :: s) []) as E.
    change (lower (x :: s)) with (Char.lower x :: lower s) in E.
    cbn [lower_caps map] in E. rewrite E.
    destruct (Re.exec true r (x :: s) []) as [|[s' g'] l]; [exact IH|].
    reflexivity.
Qed.

Lemma group_lower n m :
  Re.group n (lower_caps m) = option_map lower (Re.group n m).
Proof.
  unfold Re.group. induction m as [|[k w] m IH]; [reflexivity|].
  cbn [lower_caps map Re.lookup]. destruct (Nat.eqb k n); [reflexivity|].
  exact IH.
Qed.

Lemma for_patterns_lower ps s :
  (forall q, In q ps -> In q patterns) ->
  for_patterns ps (lower s) = for_patterns ps s.
Proof.
  induction ps as [|q ps IH]; intros H; [reflexivity|].
  cbn [for_patterns]. rewrite search_lower.
  destruct (Re.search true q s) as [m|] eqn:E; cbn [option_map].
  - destruct (@float_of_group_ok q s m) as [w [v [Hg [_ [Hf [Hv _]]]]]];
      [apply H; now left|exact E|].
    rewrite Hf. unfold float_of_group. rewrite group_lower, Hg.
    cbn [option_map]. unfold py_float. now rewrite of_str_lower, Hv.
  - apply IH. intros r Hr. apply H. now right.
Qed.

Lemma extract_value_lower line name :
  extract_value (lower line) name = extract_value line name.
Proof.
  rewrite !extract_value_eq. unfold extract_value_try.
  rewrite clean_lower, for_patterns_lower by auto.
  rewrite split_ws_lower.
  replace (rev (map lower (split_ws (clean line))))
    with (map lower (rev (split_ws (clean line))))
    by apply map_rev.
  now rewrite for_words_lower.
Qed.

Lemma extract_value_result_lower line name :
  extract_value_result (lower line) name = extract_value_result line name.
Proof. unfold extract_value_result. now rewrite extract_value_lower. Qed.

Lemma alias_in_lower a line : alias_in a (lower line) = alias_in a line.
Proof. unfold alias_in. now rewrite lower_idem. Qed.

Lemma for_offsets_lower lines idx b offsets :
  for_offsets (map lower lines) idx b offsets = for_offsets lines idx b offsets.
Proof.
  induction offsets as [|o offsets IH]; [reflexivity|].
  cbn [for_offsets]. rewrite length_map, IH.
  change (@nil ascii) with (lower []) at 1. rewrite map_nth.
  now rewrite extract_value_result_lower.
Qed.

Lemma for_aliases_lower lines idx line b als :
  for_aliases (map lower lines) idx (lower line) b als
  = for_aliases lines idx line b als.
Proof.
  induction als as [|p als IH]; [reflexivity|].
  cbn [for_aliases].
  now rewrite alias_in_lower, for_offsets_lower, extract_value_result_lower, IH.
Qed.

Lemma for_biomarkers_lower lines idx line table :
  for_biomarkers (map lower lines) idx (lower line) table
  = for_biomarkers lines idx line table.
Proof.
  induction table as [|[b i] table IH]; [reflexivity|].
  cbn [for_biomarkers]. now rewrite for_aliases_lower, IH.
Qed.

Lemma scan_from_lower lines todo idx table :
  scan_from (map lower lines) idx (map lower todo) table
  = scan_from lines idx todo table.
Proof.
  revert idx table. induction todo as [|line todo IH]; intros idx table;
    [reflexivity|].
  cbn [map scan_from]. rewrite for_biomarkers_lower.
  destruct (for_biomarkers lines idx line table) as [table' evs].
  now rewrite IH.
Qed.

Lemma split_on_newline_lower s :
  split_on "010" (lower s) = map lower (split_on "010" s).
Proof.
  induction s as [|c s IH]; [reflexivity|].
  change (lower (c :: s)) with (Char.lower c :: lower s).
  cbn [split_on].
  destruct (lower_char_marks c) as [_ [_ [_ [_ [_ [_ [_ ->]]]]]]].
  rewrite IH. destruct (chr_eqb c "010"); [reflexivity|].
  now destruct (split_on "010" s).
Qed.

(** X13. Case does not matter to the extraction: [extract_value] gives
    the same on a line and on the line in lower case, and the scan of a
    text in lower case makes the same calls and ends with the same table,
    hence the same mapping in the record. *)
Theorem extraction_ignores_case :
  (forall line name : str,
      extract_value (lower line) name = extract_value line name) /\
  (forall full_text : str,
      scan (split_on "010" (lower full_text))
      = scan (split_on "010" full_text)) /\
  (forall full_text : str,
      biomarkers_data_of (extract_all (lower full_text))
      = biomarkers_data_of (extract_all full_text)).
Proof.
  assert (S : forall full_text : str,
             scan (split_on "010" (lower full_text))
             = scan (split_on "010" full_text)).
  { intros t. rewrite split_on_newline_lower. apply scan_from_lower. }
  split; [apply extract_value_lower|]. split; [exact S|].
  intros t. unfold extract_all. now rewrite S.
Qed.
